(** * Sentinel webhook server: the activity tracker of [webhook-server/server.js]

    A shallow embedding of the tracker state, of [handleHookEvent],
    [isClaudeActive], [getStatus] and of the [POST /hook] handler, followed by
    the properties the specification states about them.  The routing of the
    request handler, [POST /simulate], the content script and the popup's
    [formatTimeAgo] are embedded as well; their properties close the file. *)

From Stdlib Require Import List String Ascii Bool ZArith Lia Floats DecimalString.
From Stdlib Require Import Permutation.
From Stdlib Require DecimalZ.
Import ListNotations.
Set Warnings "-register-all".
Local Open Scope string_scope.
Local Open Scope Z_scope.

(** ** JavaScript values that reach the server *)

Module Js.

(** What [JSON.parse] can return.  Numbers are IEEE doubles, as in JavaScript.
    A [JObj] lists the own properties of the parsed object in property order;
    a [string] is read as a sequence of code units. *)
Inductive json : Type :=
| JNull
| JBool (b : bool)
| JNum (x : float)
| JStr (s : string)
| JArr (items : list json)
| JObj (fields : list (string * json)).

(** A JavaScript value here is [undefined] or a JSON value. *)
Inductive value : Type :=
| undefined
| Val (j : json).

Coercion Val : json >-> value.

Definition null : value := Val JNull.

(** ToBoolean. *)
Definition truthy (v : value) : bool :=
  match v with
  | undefined => false
  | Val JNull => false
  | Val (JBool b) => b
  | Val (JNum x) => negb (PrimFloat.eqb x 0%float) && PrimFloat.eqb x x
  | Val (JStr s) => negb (s =? "")%string
  | Val (JArr _) => true
  | Val (JObj _) => true
  end.

(** [a || b] *)
Definition or_else (a b : value) : value := if truthy a then a else b.

(** [v === null], [v !== null] *)
Definition is_null (v : value) : bool :=
  match v with
  | Val JNull => true
  | _ => false
  end.

Fixpoint lookup (k : string) (fields : list (string * json)) : value :=
  match fields with
  | [] => undefined
  | (k', v) :: rest => if (k =? k')%string then Val v else lookup k rest
  end.

Definition has_key (k : string) (fields : list (string * json)) : bool :=
  existsb (fun kv => (k =? fst kv)%string) fields.

(** ToString, as a template literal applies it, can fail: an object with an
    own [toString] property (never callable in parsed JSON) falls through to
    [Object.prototype.valueOf], which answers the object itself, and the
    conversion ends in a TypeError; [Array.prototype.toString] joins the
    ToString of every element other than [null]. *)
Fixpoint toString_throws (j : json) : bool :=
  match j with
  | JObj fields => has_key "toString" fields
  | JArr items => existsb toString_throws items
  | _ => false
  end.

(** SameValueZero between a key stored in a [Map] by an earlier request and a
    key taken from the event at hand.  Objects and arrays are compared by
    identity, and every [JSON.parse] allocates fresh ones, so they never
    match. *)
Definition same_value_zero (a b : value) : bool :=
  match a, b with
  | undefined, undefined => true
  | Val JNull, Val JNull => true
  | Val (JBool x), Val (JBool y) => Bool.eqb x y
  | Val (JNum x), Val (JNum y) =>
      PrimFloat.eqb x y || (negb (PrimFloat.eqb x x) && negb (PrimFloat.eqb y y))
  | Val (JStr x), Val (JStr y) => (x =? y)%string
  | _, _ => false
  end.

End Js.
Import Js.

(** The property names the server reads from an event.  None of them is an
    index, [length] or a method of a prototype, so reading one from a string,
    number, boolean or array yields [undefined]. *)
Inductive key : Type :=
| K_event
| K_hook_event_name
| K_session_id
| K_tool_use_id
| K_tool_name.

Definition key_name (k : key) : string :=
  match k with
  | K_event => "event"
  | K_hook_event_name => "hook_event_name"
  | K_session_id => "session_id"
  | K_tool_use_id => "tool_use_id"
  | K_tool_name => "tool_name"
  end.

Inductive exn : Type :=
| TypeError
| SyntaxError.

Inductive outcome (A : Type) : Type :=
| Returned (a : A)
| Thrown (e : exn).

Arguments Returned {A} a.
Arguments Thrown {A} e.

(** [o.k]: reading a property of [null] throws. *)
Definition get_prop (o : json) (k : key) : outcome value :=
  match o with
  | JNull => Thrown TypeError
  | JObj fields => Returned (lookup (key_name k) fields)
  | _ => Returned undefined
  end.

(** ** Tracker state *)

Record Task : Type := mkTask {
  startedAt : Z;
  toolName : value
}.

(** [lastActivity] holds [null] ([None]) or a reading of [Date.now()];
    [activeTasks] is the [Map] in insertion order. *)
Record State : Type := mkState {
  isActive : bool;
  lastActivity : option Z;
  currentSession : value;
  activeTasks : list (value * Task);
  activityHistory : list json
}.

Definition initial_state : State :=
  {| isActive := false;
     lastActivity := None;
     currentSession := null;
     activeTasks := [];
     activityHistory := [] |}.

Definition INACTIVITY_TIMEOUT : Z := 2 * 60 * 1000.

Definition set_isActive (b : bool) (s : State) : State :=
  mkState b (lastActivity s) (currentSession s) (activeTasks s) (activityHistory s).

Definition set_lastActivity (t : option Z) (s : State) : State :=
  mkState (isActive s) t (currentSession s) (activeTasks s) (activityHistory s).

Definition set_currentSession (v : value) (s : State) : State :=
  mkState (isActive s) (lastActivity s) v (activeTasks s) (activityHistory s).

Definition set_activeTasks (m : list (value * Task)) (s : State) : State :=
  mkState (isActive s) (lastActivity s) (currentSession s) m (activityHistory s).

Definition set_activityHistory (h : list json) (s : State) : State :=
  mkState (isActive s) (lastActivity s) (currentSession s) (activeTasks s) h.

(** *** [Map] operations *)

Fixpoint map_set (k : value) (t : Task) (m : list (value * Task)) : list (value * Task) :=
  match m with
  | [] => [(k, t)]
  | (k', t') :: rest =>
      if same_value_zero k' k then (k', t) :: rest else (k', t') :: map_set k t rest
  end.

Fixpoint map_delete (k : value) (m : list (value * Task)) : list (value * Task) :=
  match m with
  | [] => []
  | (k', t') :: rest =>
      if same_value_zero k' k then rest else (k', t') :: map_delete k rest
  end.

Definition map_size (m : list (value * Task)) : nat := List.length m.

(** *** History records: [{ ...event, receivedAt: timestamp }] *)

Definition index_key (i : nat) : string := NilZero.string_of_uint (Nat.to_uint i).

Fixpoint indexed {A : Type} (f : A -> json) (i : nat) (l : list A) : list (string * json) :=
  match l with
  | [] => []
  | a :: rest => (index_key i, f a) :: indexed f (S i) rest
  end.

(** Own enumerable properties copied by the spread. *)
Definition spread (event : json) : list (string * json) :=
  match event with
  | JObj fields => fields
  | JArr items => indexed (fun j => j) 0 items
  | JStr s => indexed (fun c => JStr (String c EmptyString)) 0 (list_ascii_of_string s)
  | _ => []
  end.

Fixpoint set_field (k : string) (v : json) (fields : list (string * json)) : list (string * json) :=
  match fields with
  | [] => [(k, v)]
  | (k', v') :: rest =>
      if (k =? k')%string then (k', v) :: rest else (k', v') :: set_field k v rest
  end.

Definition record_of (event : json) (timestamp : string) : json :=
  JObj (set_field "receivedAt" (JStr timestamp) (spread event)).

(** ** Computations over the tracker state that may throw

    A thrown exception leaves the mutations made before it in place. *)

Definition JS (A : Type) : Type := State -> outcome A * State.

Definition ret {A : Type} (a : A) : JS A := fun s => (Returned a, s).

Definition bind {A B : Type} (m : JS A) (f : A -> JS B) : JS B :=
  fun s =>
    match m s with
    | (Returned a, s') => f a s'
    | (Thrown e, s') => (Thrown e, s')
    end.

Definition lift {A : Type} (o : outcome A) : JS A := fun s => (o, s).

Definition throw {A : Type} (e : exn) : JS A := lift (Thrown e).

Definition gets {A : Type} (f : State -> A) : JS A := fun s => (Returned (f s), s).

Definition modify (f : State -> State) : JS unit := fun s => (Returned tt, f s).

Definition try_catch {A : Type} (m : JS A) (handler : exn -> JS A) : JS A :=
  fun s =>
    match m s with
    | (Returned a, s') => (Returned a, s')
    | (Thrown e, s') => handler e s'
    end.

Definition when (b : bool) (m : JS unit) : JS unit := if b then m else ret tt.

Declare Scope js_scope.
Delimit Scope js_scope with js.
Notation "x <- m ;; k" := (bind m (fun x => k))
  (at level 61, m at next level, right associativity) : js_scope.
Notation "m ;; k" := (bind m (fun _ => k))
  (at level 61, right associativity) : js_scope.
Local Open Scope js_scope.

(** ** [handleHookEvent] *)

(** The clock readings one call consumes: [new Date().toISOString()] on
    entry, [Date.now()] for a task's [startedAt], and the [Date.now()] that
    stamps [lastActivity]. *)
Record Clock : Type := mkClock {
  isoString : string;
  nowStarted : Z;
  now : Z
}.

(** [event.event || event.hook_event_name] *)
Definition event_type (event : json) : JS value :=
  a <- lift (get_prop event K_event) ;;
  if truthy a then ret a else lift (get_prop event K_hook_event_name).

Inductive kind : Type :=
| SessionStart
| SessionEnd
| TaskStart
| TaskEnd
| Stop
| Heartbeat
| Other.

(** The [switch], which compares with [===]. *)
Definition classify (eventType : value) : kind :=
  match eventType with
  | Val (JStr s) =>
      if (s =? "session_start")%string || (s =? "SessionStart")%string then SessionStart
      else if (s =? "session_end")%string || (s =? "SessionEnd")%string then SessionEnd
      else if (s =? "task_start")%string || (s =? "PreToolUse")%string then TaskStart
      else if (s =? "task_end")%string || (s =? "PostToolUse")%string then TaskEnd
      else if (s =? "stop")%string || (s =? "Stop")%string || (s =? "SubagentStop")%string
      then Stop
      else if (s =? "heartbeat")%string then Heartbeat
      else Other
  | _ => Other
  end.

(** The template literal [`${v}`] of the last [console.log]; what is printed
    is no part of the tracker state, the conversion can throw. *)
Definition template (v : value) : JS unit :=
  match v with
  | Val j => if toString_throws j then throw TypeError else ret tt
  | undefined => ret tt
  end.

Definition unshift (r : json) (s : State) : State :=
  set_activityHistory (r :: activityHistory s) s.

Definition pop (s : State) : State :=
  set_activityHistory (removelast (activityHistory s)) s.

(** Lines 35-39: add to history, keep the last 50 events. *)
Definition add_to_history (event : json) (timestamp : string) : JS unit :=
  modify (unshift (record_of event timestamp)) ;;
  len <- gets (fun s => List.length (activityHistory s)) ;;
  when (50 <? len)%nat (modify pop).

(** Lines 43-104: the [switch (eventType)]. *)
Definition dispatch (c : Clock) (event : json) (eventType : value) : JS unit :=
  match classify eventType with
  | SessionStart =>
      sid <- lift (get_prop event K_session_id) ;;
      modify (set_currentSession (or_else sid (JStr "active"))) ;;
      modify (set_isActive true) ;;
      modify (set_lastActivity (Some (now c)))
  | SessionEnd =>
      modify (set_currentSession null) ;;
      modify (set_isActive false) ;;
      modify (set_activeTasks [])
  | TaskStart =>
      id <- lift (get_prop event K_tool_use_id) ;;
      when (truthy id)
        (name <- lift (get_prop event K_tool_name) ;;
         modify (fun s =>
           set_activeTasks (map_set id (mkTask (nowStarted c) name) (activeTasks s)) s)) ;;
      modify (set_isActive true) ;;
      modify (set_lastActivity (Some (now c)))
  | TaskEnd =>
      id <- lift (get_prop event K_tool_use_id) ;;
      when (truthy id)
        (modify (fun s => set_activeTasks (map_delete id (activeTasks s)) s)) ;;
      modify (set_lastActivity (Some (now c))) ;;
      modify (fun s =>
        set_isActive ((0 <? map_size (activeTasks s))%nat
                      || negb (is_null (currentSession s))) s)
  | Stop =>
      modify (set_lastActivity (Some (now c)))
  | Heartbeat =>
      modify (set_lastActivity (Some (now c)))
  | Other =>
      modify (set_lastActivity (Some (now c))) ;;
      template eventType
  end.

(** The first read of the event type is the argument of the opening
    [console.log]. *)
Definition handleHookEvent (c : Clock) (event : json) : JS unit :=
  let timestamp := isoString c in
  _ <- event_type event ;;
  add_to_history event timestamp ;;
  eventType <- event_type event ;;
  dispatch c event eventType.

(** ** [isClaudeActive] and [getStatus] *)

(** [if (state.lastActivity)]: [null] and [0] are falsy. *)
Definition time_truthy (t : option Z) : bool :=
  match t with
  | None => false
  | Some x => negb (x =? 0)
  end.

Definition time_or_zero (t : option Z) : Z :=
  match t with
  | None => 0
  | Some x => x
  end.

Definition isClaudeActive (dateNow : Z) (s : State) : bool :=
  if negb (truthy (currentSession s)) && (map_size (activeTasks s) =? 0)%nat then false
  else if (0 <? map_size (activeTasks s))%nat then true
  else if time_truthy (lastActivity s) then
    let timeSinceActivity := dateNow - time_or_zero (lastActivity s) in
    if timeSinceActivity <? INACTIVITY_TIMEOUT then true else false
  else false.

Record Status : Type := mkStatus {
  status_isActive : bool;
  status_lastActivity : option Z;
  status_currentSession : value;
  activeTaskCount : nat;
  timeSinceActivity : option Z;
  inactivityTimeout : Z
}.

(** [getStatus] reads the clock twice: inside [isClaudeActive] and for
    [timeSinceActivity]. *)
Definition getStatus (dateNow dateNow' : Z) (s : State) : Status :=
  let active := isClaudeActive dateNow s in
  {| status_isActive := active;
     status_lastActivity := lastActivity s;
     status_currentSession := currentSession s;
     activeTaskCount := map_size (activeTasks s);
     timeSinceActivity :=
       if time_truthy (lastActivity s)
       then Some (dateNow' - time_or_zero (lastActivity s))
       else None;
     inactivityTimeout := INACTIVITY_TIMEOUT |}.

(** ** The HTTP boundary: [POST /hook] and [GET /history] *)

Record Response : Type := mkResponse {
  statusCode : Z;
  responseBody : json
}.

Definition success_response : Response :=
  mkResponse 200 (JObj [("success", JBool true)]).

Definition invalid_json_response : Response :=
  mkResponse 400 (JObj [("error", JStr "Invalid JSON")]).

Section Server.

(** [JSON.parse]: a built-in, taken as given; it returns a JSON value or
    throws a SyntaxError. *)
Variable JSON_parse : string -> outcome json.

Definition post_hook (c : Clock) (body : string) : JS Response :=
  try_catch
    (event <- lift (JSON_parse body) ;;
     handleHookEvent c event ;;
     ret success_response)
    (fun _ => ret invalid_json_response).

End Server.

Definition get_history (s : State) : list json := activityHistory s.

(** ** Runs of the tracker *)

(** The state a call leaves behind, whether it returned or threw. *)
Definition submit (c : Clock) (event : json) (s : State) : State :=
  snd (handleHookEvent c event s).

Definition submit_all (calls : list (Clock * json)) (s : State) : State :=
  fold_left (fun st call => submit (fst call) (snd call) st) calls s.

(** [Date.now()] counts milliseconds since 1970: positive on a running system. *)
Definition clock_ok (c : Clock) : Prop := 0 < nowStarted c /\ 0 < now c.

Inductive reachable : State -> Prop :=
| reachable_initial : reachable initial_state
| reachable_submit (s : State) (c : Clock) (event : json) :
    reachable s -> clock_ok c -> reachable (submit c event s).

(** ** The derivation rule as the specification words it *)

Module Rule.

Definition session_is_null (s : State) : bool := is_null (currentSession s).

Definition tasks_empty (s : State) : bool :=
  match activeTasks s with
  | [] => true
  | _ :: _ => false
  end.

Definition lastActivityAt_set (s : State) : bool :=
  match lastActivity s with
  | None => false
  | Some _ => true
  end.

Definition within_timeout (dateNow : Z) (s : State) : bool :=
  match lastActivity s with
  | None => false
  | Some t => dateNow - t <? 120000
  end.

(** Steps 1 to 4 of [queryActive]. *)
Definition queryActive (dateNow : Z) (s : State) : bool :=
  if session_is_null s && tasks_empty s then false
  else if negb (tasks_empty s) then true
  else if lastActivityAt_set s && within_timeout dateNow s then true
  else false.

End Rule.

(** ** Direct readings used in the statements *)

(** [event.k] on an event other than [null], where the read cannot throw. *)
Definition prop (event : json) (k : key) : value :=
  match event with
  | JObj fields => lookup (key_name k) fields
  | _ => undefined
  end.

(** [event.event || event.hook_event_name] on such an event. *)
Definition event_name (event : json) : value :=
  or_else (prop event K_event) (prop event K_hook_event_name).

Definition kind_of (event : json) : kind := classify (event_name event).

(** The history after one more record: newest first, one dropped past 50. *)
Definition logged (h : list json) (event : json) (timestamp : string) : list json :=
  let h' := record_of event timestamp :: h in
  if (50 <? List.length h')%nat then removelast h' else h'.

(** What every reachable state satisfies. *)
Record invariant (s : State) : Prop := mkInvariant {
  inv_session : is_null (currentSession s) = true \/ truthy (currentSession s) = true;
  inv_time : forall t, lastActivity s = Some t -> 0 < t;
  inv_history : (List.length (activityHistory s) <= 50)%nat;
  inv_flag :
    is_null (currentSession s) = false \/ activeTasks s <> [] -> isActive s = true
}.



(** The record [handleHookEvent] files for a call. *)
Definition record_of_call (call : Clock * json) : json :=
  record_of (snd call) (isoString (fst call)).

Definition is_event (call : Clock * json) : Prop := snd call <> JNull.



Definition keys (m : list (value * Task)) : list value := map fst m.


(** *** Sample requests *)

(** [{ event: name }] *)
Definition named_event (name : string) : json := JObj [("event", JStr name)].

(** [{ event: name, tool_use_id: id }] *)
Definition tool_event (name id : string) : json :=
  JObj [("event", JStr name); ("tool_use_id", JStr id)].

(** A call during which every clock read falls in millisecond [t]. *)
Definition clock_at (t : Z) : Clock := mkClock "2026-01-01T00:00:00.000Z" t t.

(** The quotation mark, and the body [{"event":{"toString":1}}]. *)
Definition quote : string := String (ascii_of_nat 34) EmptyString.

Definition unprintable_body : string :=
  "{" ++ quote ++ "event" ++ quote ++ ":{" ++ quote ++ "toString" ++ quote ++ ":1}}".

Definition unprintable_event : json :=
  JObj [("event", JObj [("toString", JNum 1%float)])].

(** A stand-in for [JSON.parse] on the few bodies the examples post. *)
Definition parse_sample (body : string) : outcome json :=
  if (body =? "null")%string then Returned JNull
  else if (body =? "42")%string then Returned (JNum 42%float)
  else if (body =? "true")%string then Returned (JBool true)
  else if (body =? unprintable_body)%string then Returned unprintable_event
  else Thrown SyntaxError.

(** Numbers, strings and booleans. *)
Definition is_primitive (v : json) : bool :=
  match v with
  | JBool _ | JNum _ | JStr _ => true
  | _ => false
  end.

(** ** The rest of the request handler: routing and [POST /simulate] *)

Record Request : Type := mkRequest {
  method : string;
  url : string;
  requestBody : string
}.

(** What is handed to [res.end]: nothing, or the value given to
    [JSON.stringify]. *)
Inductive Body : Type :=
| EmptyBody
| JsonBody (j : json)
| StatusBody (st : Status)
| HistoryBody (h : list json)
| SimulateBody (st : Status).

Record Reply : Type := mkReply {
  replyCode : Z;
  replyHeaders : list (string * string);
  replyBody : Body
}.

(** The three [res.setHeader] calls that open the handler. *)
Definition cors_headers : list (string * string) :=
  [("Access-Control-Allow-Origin", "*");
   ("Access-Control-Allow-Methods", "GET, POST, OPTIONS");
   ("Access-Control-Allow-Headers", "Content-Type")].

(** ... and the header [res.writeHead] adds. *)
Definition json_headers : list (string * string) :=
  (cors_headers ++ [("Content-Type", "application/json")])%list.

Definition reply_of (r : Response) : Reply :=
  mkReply (statusCode r) json_headers (JsonBody (responseBody r)).

Definition not_found_reply : Reply :=
  mkReply 404 json_headers (JsonBody (JObj [("error", JStr "Not found")])).

Definition invalid_request_reply : Reply :=
  mkReply 400 json_headers (JsonBody (JObj [("error", JStr "Invalid request")])).

(** The clock readings one request can consume: those of [handleHookEvent],
    the [Date.now()] of a simulated task id, and the two of [getStatus]. *)
Record Ticks : Type := mkTicks {
  hookClock : Clock;
  idNow : Z;
  statusNow : Z;
  statusNow' : Z
}.

(** [const { action } = v]: destructuring [null] throws. *)
Definition destructure_action (v : json) : outcome value :=
  match v with
  | JNull => Thrown TypeError
  | JObj fields => Returned (lookup "action" fields)
  | _ => Returned undefined
  end.

(** [v === 'text'] *)
Definition is_string (v : value) (text : string) : bool :=
  match v with
  | Val (JStr x) => (x =? text)%string
  | _ => false
  end.

(** An integer as a template literal prints it. *)
Definition decimal (z : Z) : string := NilEmpty.string_of_int (Z.to_int z).

(** [`task-${Date.now()}`] *)
Definition simulated_task_id (t : Z) : string := "task-" ++ decimal t.

Definition simulated_session_start : json :=
  JObj [("event", JStr "session_start"); ("session_id", JStr "test-session")].

Definition simulated_session_end : json := JObj [("event", JStr "session_end")].

Definition simulated_task_start (t : Z) : json :=
  JObj [("event", JStr "task_start"); ("tool_use_id", JStr (simulated_task_id t))].

Section Routes.

Variable JSON_parse : string -> outcome json.

Definition post_simulate (t : Ticks) (body : string) : JS Reply :=
  try_catch
    (parsed <- lift (JSON_parse body) ;;
     action <- lift (destructure_action parsed) ;;
     (if is_string action "start" then
        handleHookEvent (hookClock t) simulated_session_start
      else if is_string action "stop" then
        handleHookEvent (hookClock t) simulated_session_end
      else if is_string action "task_start" then
        handleHookEvent (hookClock t) (simulated_task_start (idNow t))
      else ret tt) ;;
     st <- gets (getStatus (statusNow t) (statusNow' t)) ;;
     ret (mkReply 200 json_headers (SimulateBody st)))
    (fun _ => ret invalid_request_reply).

(** The callback of [http.createServer], run once the body has arrived. *)
Definition server (t : Ticks) (req : Request) : JS Reply :=
  if (method req =? "OPTIONS")%string then
    ret (mkReply 204 cors_headers EmptyBody)
  else if (method req =? "POST")%string && (url req =? "/hook")%string then
    r <- post_hook JSON_parse (hookClock t) (requestBody req) ;;
    ret (reply_of r)
  else if (method req =? "GET")%string && (url req =? "/status")%string then
    st <- gets (getStatus (statusNow t) (statusNow' t)) ;;
    ret (mkReply 200 json_headers (StatusBody st))
  else if (method req =? "GET")%string && (url req =? "/history")%string then
    h <- gets activityHistory ;;
    ret (mkReply 200 json_headers (HistoryBody h))
  else if (method req =? "POST")%string && (url req =? "/simulate")%string then
    post_simulate t (requestBody req)
  else
    ret not_found_reply.

End Routes.

(** *** Readings of the task [Map] used in the statements *)

(** [Map.prototype.has] *)
Definition has_task (k : value) (m : list (value * Task)) : bool :=
  existsb (fun entry => same_value_zero (fst entry) k) m.

(** Arrays and objects: the values compared by identity. *)
Definition is_object (v : value) : bool :=
  match v with
  | Val (JArr _) | Val (JObj _) => true
  | _ => false
  end.

(** No key matches a later one. *)
Fixpoint distinct_keys (ks : list value) : Prop :=
  match ks with
  | [] => True
  | k :: rest => Forall (fun k' => same_value_zero k k' = false) rest /\ distinct_keys rest
  end.

(** A call that stamps [lastActivity] and does nothing else to the session
    or the tasks. *)
Definition only_stamps (event : json) : Prop :=
  event <> JNull /\
  (kind_of event = Stop \/ kind_of event = Heartbeat \/ kind_of event = Other).

(** A call that can open a session or register a task. *)
Definition can_activate (event : json) : bool :=
  match kind_of event with
  | SessionStart => true
  | TaskStart => truthy (prop event K_tool_use_id)
  | _ => false
  end.

(** Some key is an array or an object. *)
Definition has_object (m : list (value * Task)) : bool :=
  existsb (fun entry => is_object (fst entry)) m.

(** [action] as the destructuring of a value other than [null] yields it. *)
Definition action_of (v : json) : value :=
  match v with
  | JObj fields => lookup "action" fields
  | _ => undefined
  end.

(** The state a [POST /simulate] with that action leaves. *)
Definition after_simulate (t : Ticks) (action : value) (s : State) : State :=
  if is_string action "start" then submit (hookClock t) simulated_session_start s
  else if is_string action "stop" then submit (hookClock t) simulated_session_end s
  else if is_string action "task_start" then
    submit (hookClock t) (simulated_task_start (idNow t)) s
  else s.

(** A history entry as [handleHookEvent] writes them. *)
Definition is_record (r : json) : Prop :=
  exists fields timestamp, r = JObj fields /\ lookup "receivedAt" fields = JStr timestamp.

(** ** The polling clients of [GET /status] *)

(** *** The content script that covers YouTube pages *)

Module ContentScript.

(** The overlay element: whether it carries the class [visible], and the
    text of its [.cfg-message] and [.cfg-submessage] paragraphs. *)
Record Overlay : Type := mkOverlay {
  visible : bool;
  message : string;
  submessage : string
}.

(** The script's variables [overlay] and [isBlocked], and
    [document.body.style.overflow]. *)
Record Page : Type := mkPage {
  overlay : option Overlay;
  isBlocked : bool;
  bodyOverflow : string
}.

(** [chrome.storage.local]: [blockingEnabled] is unset or a boolean,
    [bypassUntil] unset or a time. *)
Record Storage : Type := mkStorage {
  blockingEnabled : option bool;
  bypassUntil : option Z
}.

Definition fresh_overlay : Overlay :=
  {| visible := false;
     message := "Claude Code is not currently active.";
     submessage := "Start a Claude Code session to unlock YouTube." |}.

Definition createOverlay (p : Page) : Page :=
  match overlay p with
  | Some _ => p
  | None => mkPage (Some fresh_overlay) (isBlocked p) (bodyOverflow p)
  end.

Definition set_visible (b : bool) (p : Page) : Page :=
  match overlay p with
  | Some o => mkPage (Some (mkOverlay b (message o) (submessage o))) (isBlocked p)
                (bodyOverflow p)
  | None => p
  end.

Definition showOverlay (p : Page) : Page :=
  let p1 := match overlay p with None => createOverlay p | Some _ => p end in
  let p2 := set_visible true p1 in
  mkPage (overlay p2) true "hidden".

Definition hideOverlay (p : Page) : Page :=
  let p1 := set_visible false p in
  mkPage (overlay p1) false "".

Definition handleBypass (dateNow : Z) (w : Page * Storage) : Page * Storage :=
  let bypass := dateNow + 5 * 60 * 1000 in
  (hideOverlay (fst w), mkStorage (blockingEnabled (snd w)) (Some bypass)).

(** How the [fetch] of [/status] and [response.json()] can end. *)
Inductive fetched : Type :=
| NetworkError
| NotOk
| BadJson
| Json (status : json).

(** [status.isActive] *)
Definition read_isActive (status : json) : outcome value :=
  match status with
  | JNull => Thrown TypeError
  | JObj fields => Returned (lookup "isActive" fields)
  | _ => Returned undefined
  end.

(** The [catch] block: block, and say that the server cannot be reached. *)
Definition server_unreachable (p : Page) : Page :=
  let p1 := showOverlay p in
  match overlay p1 with
  | Some o =>
      mkPage (Some (mkOverlay (visible o) "Cannot connect to Sentinel server."
                      "Start the webhook server or disable the extension."))
        (isBlocked p1) (bodyOverflow p1)
  | None => p1
  end.

(** One run of [checkStatus], from what it reads: whether
    [chrome.storage.local.get] answered, the two [Date.now()] of the bypass
    tests, and the outcome of the fetch. *)
Definition checkStatus (storageAnswers : bool) (dateNow dateNow' : Z) (response : fetched)
    (w : Page * Storage) : Page * Storage :=
  let p := fst w in
  let storage := snd w in
  if negb storageAnswers then (server_unreachable p, storage)
  else if match blockingEnabled storage with Some false => true | _ => false end then
    (hideOverlay p, storage)
  else if time_truthy (bypassUntil storage)
          && (dateNow <? time_or_zero (bypassUntil storage)) then
    (hideOverlay p, storage)
  else
    let storage' :=
      if time_truthy (bypassUntil storage)
         && (time_or_zero (bypassUntil storage) <=? dateNow')
      then mkStorage (blockingEnabled storage) None
      else storage in
    match response with
    | Json status =>
        match read_isActive status with
        | Returned active =>
            if truthy active then (hideOverlay p, storage')
            else (showOverlay p, storage')
        | Thrown _ => (server_unreachable p, storage')
        end
    | _ => (server_unreachable p, storage')
    end.

(** The flag, the overlay and the scroll lock say the same. *)
Definition coherent (p : Page) : Prop :=
  (isBlocked p = true <-> exists o, overlay p = Some o /\ visible o = true) /\
  (isBlocked p = true <-> bodyOverflow p = "hidden").

(** The server reported activity. *)
Definition reports_active (response : fetched) : bool :=
  match response with
  | Json (JObj fields) => truthy (lookup "isActive" fields)
  | _ => false
  end.

(** The overlay carries the text of the [catch] block. *)
Definition error_shown (p : Page) : Prop :=
  exists o, overlay p = Some o /\
            message o = "Cannot connect to Sentinel server." /\
            submessage o = "Start the webhook server or disable the extension.".

End ContentScript.

(** *** The popup *)

Module Popup.

(** [formatTimeAgo], on the [lastActivity] of a status: [null] or a time in
    milliseconds. *)
Definition formatTimeAgo (dateNow : Z) (timestamp : option Z) : string :=
  if negb (time_truthy timestamp) then "Never"
  else
    let seconds := (dateNow - time_or_zero timestamp) / 1000 in
    if seconds <? 5 then "Just now"
    else if seconds <? 60 then decimal seconds ++ "s ago"
    else if seconds <? 3600 then decimal (seconds / 60) ++ "m ago"
    else if seconds <? 86400 then decimal (seconds / 3600) ++ "h ago"
    else decimal (seconds / 86400) ++ "d ago".

End Popup.

(** ** Basic equations *)

Lemma get_prop_not_null (event : json) (k : key) :
  event <> JNull -> get_prop event k = Returned (prop event k).
Proof. destruct event; intros H; try reflexivity. congruence. Qed.

Lemma event_type_not_null (event : json) (s : State) :
  event <> JNull ->
  event_type event s
  = (Returned (or_else (prop event K_event) (prop event K_hook_event_name)), s).
Proof.
  intros H. unfold event_type, bind, lift, or_else.
  rewrite !get_prop_not_null by assumption.
  destruct (truthy (prop event K_event)); reflexivity.
Qed.

Lemma add_to_history_eq (event : json) (timestamp : string) (s : State) :
  add_to_history event timestamp s
  = (Returned tt, set_activityHistory (logged (activityHistory s) event timestamp) s).
Proof.
  unfold add_to_history, bind, modify, gets, when, logged, unshift, pop, ret.
  cbn [activityHistory set_activityHistory].
  destruct (50 <? List.length (record_of event timestamp :: activityHistory s))%nat;
    reflexivity.
Qed.

Lemma handleHookEvent_null (c : Clock) (s : State) :
  handleHookEvent c JNull s = (Thrown TypeError, s).
Proof. reflexivity. Qed.

Lemma handleHookEvent_not_null (c : Clock) (event : json) (s : State) :
  event <> JNull ->
  handleHookEvent c event s
  = dispatch c event (or_else (prop event K_event) (prop event K_hook_event_name))
      (set_activityHistory (logged (activityHistory s) event (isoString c)) s).
Proof.
  intros H. unfold handleHookEvent, bind.
  rewrite event_type_not_null by assumption.
  rewrite add_to_history_eq.
  rewrite event_type_not_null by assumption.
  reflexivity.
Qed.

Lemma logged_length (h : list json) (event : json) (timestamp : string) :
  (List.length h <= 50)%nat -> (List.length (logged h event timestamp) <= 50)%nat.
Proof.
  intros H. unfold logged.
  destruct (50 <? List.length (record_of event timestamp :: h))%nat eqn:E.
  - rewrite removelast_firstn_len, length_firstn. cbn [List.length]. lia.
  - apply Nat.ltb_ge in E. exact E.
Qed.

(** The state one call leaves, kind by kind. *)
Lemma submit_eq (c : Clock) (event : json) (s : State) :
  event <> JNull ->
  submit c event s =
  let h := logged (activityHistory s) event (isoString c) in
  let id := prop event K_tool_use_id in
  match kind_of event with
  | SessionStart =>
      mkState true (Some (now c)) (or_else (prop event K_session_id) (JStr "active"))
        (activeTasks s) h
  | SessionEnd => mkState false (lastActivity s) null [] h
  | TaskStart =>
      mkState true (Some (now c)) (currentSession s)
        (if truthy id
         then map_set id (mkTask (nowStarted c) (prop event K_tool_name)) (activeTasks s)
         else activeTasks s) h
  | TaskEnd =>
      let tasks := if truthy id then map_delete id (activeTasks s) else activeTasks s in
      mkState ((0 <? map_size tasks)%nat || negb (is_null (currentSession s)))
        (Some (now c)) (currentSession s) tasks h
  | Stop | Heartbeat | Other =>
      mkState (isActive s) (Some (now c)) (currentSession s) (activeTasks s) h
  end.
Proof.
  intros H. unfold submit, kind_of, event_name.
  rewrite handleHookEvent_not_null by assumption.
  unfold dispatch.
  destruct (classify (or_else (prop event K_event) (prop event K_hook_event_name))) eqn:K;
    unfold bind, lift, modify, when, ret;
    rewrite ?get_prop_not_null by assumption;
    try reflexivity.
  - destruct (truthy (prop event K_tool_use_id)); reflexivity.
  - destruct (truthy (prop event K_tool_use_id)); reflexivity.
  - unfold template, throw, lift, ret.
    destruct (or_else (prop event K_event) (prop event K_hook_event_name)) as [|j];
      [reflexivity|].
    destruct (toString_throws j); reflexivity.
Qed.

(** Whether the call returns: only an unrecognised kind that cannot be
    converted to a string makes it throw, after the mutations. *)
Lemma handleHookEvent_outcome (c : Clock) (event : json) (s : State) :
  event <> JNull ->
  fst (handleHookEvent c event s) =
  match kind_of event, event_name event with
  | Other, Val j => if toString_throws j then Thrown TypeError else Returned tt
  | _, _ => Returned tt
  end.
Proof.
  intros H. unfold kind_of, event_name.
  rewrite handleHookEvent_not_null by assumption.
  unfold dispatch.
  destruct (classify (or_else (prop event K_event) (prop event K_hook_event_name))) eqn:K;
    unfold bind, lift, modify, when, ret;
    rewrite ?get_prop_not_null by assumption;
    try (destruct (or_else (prop event K_event) (prop event K_hook_event_name));
         reflexivity).
  - destruct (truthy (prop event K_tool_use_id));
      destruct (or_else (prop event K_event) (prop event K_hook_event_name)); reflexivity.
  - destruct (truthy (prop event K_tool_use_id));
      destruct (or_else (prop event K_event) (prop event K_hook_event_name)); reflexivity.
  - unfold template, throw, lift, ret.
    destruct (or_else (prop event K_event) (prop event K_hook_event_name)) as [|j];
      [reflexivity|].
    destruct (toString_throws j); reflexivity.
Qed.

Lemma submit_null (c : Clock) (s : State) : submit c JNull s = s.
Proof. reflexivity. Qed.

(** ** The invariant of reachable states *)

Lemma truthy_not_null (v : value) : truthy v = true -> is_null v = false.
Proof. destruct v as [|[]]; cbn; congruence. Qed.

Lemma or_else_active_truthy (v : value) : truthy (or_else v (JStr "active")) = true.
Proof. unfold or_else. destruct (truthy v) eqn:E; [exact E | reflexivity]. Qed.

Lemma invariant_initial : invariant initial_state.
Proof.
  constructor; cbn.
  - left; reflexivity.
  - discriminate.
  - lia.
  - intros [H | H]; congruence.
Qed.

Lemma invariant_submit (c : Clock) (event : json) (s : State) :
  invariant s -> clock_ok c -> invariant (submit c event s).
Proof.
  intros [Hs Ht Hh Hf] [_ Hc].
  assert (Hnow : forall t, Some (now c) = Some t -> 0 < t)
    by (intros t E; injection E as <-; exact Hc).
  destruct event eqn:Ev;
    [ rewrite submit_null; constructor; assumption | .. ];
    (rewrite submit_eq by discriminate; cbv zeta;
     match goal with |- invariant (match ?k with _ => _ end) => destruct k end;
     constructor; cbn [isActive lastActivity currentSession activeTasks activityHistory];
     try (apply logged_length; assumption);
     try assumption; try reflexivity;
     try (intros _; reflexivity)).
  all: try (right; apply or_else_active_truthy).
  all: try (left; reflexivity).
  all: try (intros [H | H]; cbn in H; congruence).
  all: intros [H | H];
    [ rewrite H; apply orb_true_r
    | match type of H with
      | ?m <> [] => destruct m; [congruence | reflexivity]
      end ].
Qed.

Lemma reachable_invariant (s : State) : reachable s -> invariant s.
Proof.
  induction 1 as [| s c event _ IH Hc].
  - apply invariant_initial.
  - apply invariant_submit; assumption.
Qed.

(** ** [isClaudeActive] against the derivation rule *)

Lemma tasks_empty_size (s : State) :
  Rule.tasks_empty s = (map_size (activeTasks s) =? 0)%nat.
Proof. unfold Rule.tasks_empty, map_size. destruct (activeTasks s); reflexivity. Qed.

Lemma tasks_nonempty_size (s : State) :
  negb (Rule.tasks_empty s) = (0 <? map_size (activeTasks s))%nat.
Proof. unfold Rule.tasks_empty, map_size. destruct (activeTasks s); reflexivity. Qed.

Lemma isClaudeActive_rule (dateNow : Z) (s : State) :
  invariant s -> isClaudeActive dateNow s = Rule.queryActive dateNow s.
Proof.
  intros [Hs Ht _ _].
  unfold isClaudeActive, Rule.queryActive, Rule.session_is_null.
  rewrite tasks_nonempty_size, tasks_empty_size.
  assert (E : negb (truthy (currentSession s)) = is_null (currentSession s)).
  { destruct Hs as [H | H].
    - rewrite H. destruct (currentSession s) as [|[]]; cbn in *; congruence.
    - rewrite H, (truthy_not_null _ H). reflexivity. }
  rewrite E.
  destruct (is_null (currentSession s) && (map_size (activeTasks s) =? 0)%nat);
    [reflexivity|].
  destruct (0 <? map_size (activeTasks s))%nat; [reflexivity|].
  unfold time_truthy, time_or_zero, Rule.lastActivityAt_set, Rule.within_timeout.
  destruct (lastActivity s) as [t|]; [|reflexivity].
  specialize (Ht t eq_refl).
  replace (t =? 0) with false by (symmetry; apply Z.eqb_neq; lia).
  change INACTIVITY_TIMEOUT with 120000.
  cbn [negb andb]. destruct (dateNow - t <? 120000); reflexivity.
Qed.

(** C1: on every state the tracker can reach and at every current time,
    [isClaudeActive] returns what the four-step derivation rule of
    [queryActive] prescribes: false with no session and no task; otherwise
    true when a task is in flight; otherwise true when [lastActivity] is set
    and less than 120000 ms old; otherwise false. *)
Theorem isClaudeActive_implements_rule (dateNow : Z) (s : State) :
  reachable s -> isClaudeActive dateNow s = Rule.queryActive dateNow s.
Proof. intros H. apply isClaudeActive_rule, reachable_invariant, H. Qed.

Lemma isClaudeActive_implements_rule_witness :
  let s := submit (clock_at 1000) (named_event "session_start") initial_state in
  isClaudeActive 5000 s = Rule.queryActive 5000 s.
Proof.
  apply isClaudeActive_implements_rule.
  apply reachable_submit; [apply reachable_initial | unfold clock_ok; simpl; lia].
Defined.

(** C4: while the task mapping is non-empty, [isClaudeActive] is true at
    every current time, whatever [lastActivity] holds. *)
Theorem tasks_override_timeout (dateNow : Z) (s : State) :
  activeTasks s <> [] -> isClaudeActive dateNow s = true.
Proof.
  intros H. unfold isClaudeActive, map_size.
  destruct (activeTasks s) as [|e m]; [congruence|].
  cbn [List.length Nat.eqb Nat.ltb Nat.leb]. rewrite andb_false_r. reflexivity.
Qed.

Lemma tasks_override_timeout_witness :
  let s := submit (clock_at 1000) (tool_event "task_start" "t1") initial_state in
  activeTasks s <> [] /\ isClaudeActive 999999999 s = true.
Proof.
  split; [cbn; discriminate | apply tasks_override_timeout; cbn; discriminate].
Defined.

(** ** The inactivity timeout *)

(** C3, as stated, fails: after a lone heartbeat at T = 1000 there is neither
    a session nor a task, [lastActivity] is T, and at 1001 < T + timeout
    [isClaudeActive] is already false. *)
Lemma timeout_without_session_counterexample :
  let s := submit (clock_at 1000) (named_event "heartbeat") initial_state in
  reachable s /\
  currentSession s = null /\ activeTasks s = [] /\ lastActivity s = Some 1000 /\
  1001 < 1000 + INACTIVITY_TIMEOUT /\
  isClaudeActive 1001 s = false.
Proof.
  cbv zeta. repeat split.
  apply reachable_submit; [apply reachable_initial | unfold clock_ok; simpl; lia].
Qed.

(** C3, amended: with an open session and no tasks, given [lastActivity = T]
    and no further events, [isClaudeActive] is true at every
    [now < T + timeout] and false at every [now >= T + timeout]. *)
Theorem timeout_with_open_session (dateNow T : Z) (s : State) :
  reachable s ->
  currentSession s <> null ->
  activeTasks s = [] ->
  lastActivity s = Some T ->
  (dateNow < T + INACTIVITY_TIMEOUT -> isClaudeActive dateNow s = true) /\
  (T + INACTIVITY_TIMEOUT <= dateNow -> isClaudeActive dateNow s = false).
Proof.
  intros Hr Hn Hm Ht.
  rewrite (isClaudeActive_rule dateNow s (reachable_invariant s Hr)).
  unfold Rule.queryActive, Rule.session_is_null, Rule.tasks_empty,
    Rule.lastActivityAt_set, Rule.within_timeout.
  rewrite Hm, Ht. change INACTIVITY_TIMEOUT with 120000.
  assert (E : is_null (currentSession s) = false).
  { destruct (currentSession s) as [|[]]; try reflexivity.
    exfalso; apply Hn; reflexivity. }
  rewrite E. cbn [andb negb].
  split; intros Hlt.
  - replace (dateNow - T <? 120000) with true by (symmetry; apply Z.ltb_lt; lia).
    reflexivity.
  - replace (dateNow - T <? 120000) with false by (symmetry; apply Z.ltb_ge; lia).
    reflexivity.
Qed.

Lemma timeout_with_open_session_witness :
  let s := submit (clock_at 1000) (named_event "session_start") initial_state in
  isClaudeActive 120999 s = true /\ isClaudeActive 121000 s = false.
Proof.
  intros s.
  assert (Hr : reachable s)
    by (apply reachable_submit; [apply reachable_initial | unfold clock_ok; simpl; lia]).
  assert (Hn : currentSession s <> null) by (cbn; discriminate).
  split.
  - apply (proj1 (timeout_with_open_session 120999 1000 s Hr Hn eq_refl eq_refl)).
    vm_compute. reflexivity.
  - apply (proj2 (timeout_with_open_session 121000 1000 s Hr Hn eq_refl eq_refl)).
    vm_compute. discriminate.
Defined.

(** ** The cached [isActive] flag *)

Lemma is_null_true (v : value) : is_null v = true <-> v = null.
Proof.
  split.
  - destruct v as [|[]]; cbn; intros H; try discriminate. reflexivity.
  - intros ->. reflexivity.
Qed.










(** ** Frame properties of single events *)

Lemma kind_not_null (event : json) : kind_of event <> Other -> event <> JNull.
Proof. intros H ->. apply H. reflexivity. Qed.

Lemma returns_unless_other (c : Clock) (event : json) (s : State) :
  kind_of event <> Other ->
  handleHookEvent c event s = (Returned tt, submit c event s).
Proof.
  intros H. pose proof (kind_not_null event H) as Hn.
  pose proof (handleHookEvent_outcome c event s Hn) as Ho.
  unfold submit. destruct (handleHookEvent c event s) as [o s'].
  cbn [fst snd] in *. rewrite Ho.
  destruct (kind_of event); try reflexivity. congruence.
Qed.

Lemma classify_stop (name : string) :
  In name ["stop"; "Stop"; "SubagentStop"] -> classify (JStr name) = Stop.
Proof.
  cbn [In]. intros [<- | [<- | [<- | []]]]; reflexivity.
Qed.

Lemma classify_session_end (name : string) :
  In name ["session_end"; "SessionEnd"] -> classify (JStr name) = SessionEnd.
Proof.
  cbn [In]. intros [<- | [<- | []]]; reflexivity.
Qed.

(** C8: a stop event, under any of its names [stop], [Stop], [SubagentStop],
    sets [lastActivity] to the current time and leaves [isActive], the session
    and the task mapping as they were; only the history record comes with
    it, and the call returns. *)
Theorem stop_only_stamps (c : Clock) (event : json) (name : string) (s : State) :
  event_name event = JStr name ->
  In name ["stop"; "Stop"; "SubagentStop"] ->
  handleHookEvent c event s
  = (Returned tt,
     {| isActive := isActive s;
        lastActivity := Some (now c);
        currentSession := currentSession s;
        activeTasks := activeTasks s;
        activityHistory := logged (activityHistory s) event (isoString c) |}).
Proof.
  intros Hname Hin.
  assert (K : kind_of event = Stop)
    by (unfold kind_of; rewrite Hname; apply classify_stop, Hin).
  rewrite returns_unless_other by (rewrite K; discriminate).
  rewrite submit_eq by (apply kind_not_null; rewrite K; discriminate).
  rewrite K. reflexivity.
Qed.

Lemma stop_only_stamps_witness :
  let s := submit (clock_at 1000) (named_event "session_start") initial_state in
  handleHookEvent (clock_at 500000) (named_event "SubagentStop") s
  = (Returned tt,
     {| isActive := isActive s;
        lastActivity := Some 500000;
        currentSession := currentSession s;
        activeTasks := activeTasks s;
        activityHistory :=
          logged (activityHistory s) (named_event "SubagentStop")
            (isoString (clock_at 500000)) |}).
Proof.
  apply (stop_only_stamps (clock_at 500000) (named_event "SubagentStop") "SubagentStop").
  - reflexivity.
  - simpl. auto.
Defined.

(** C6: a second session-end right after a first one changes nothing in the
    session, the task mapping, the flag or [lastActivity]: after one as after
    two the session is null, no task is left and the tracker is inactive. *)
Theorem session_end_idempotent (c1 c2 : Clock) (e1 e2 : json) (n1 n2 : string) (s : State) :
  event_name e1 = JStr n1 -> In n1 ["session_end"; "SessionEnd"] ->
  event_name e2 = JStr n2 -> In n2 ["session_end"; "SessionEnd"] ->
  let once := submit c1 e1 s in
  let twice := submit c2 e2 once in
  (currentSession once = null /\ activeTasks once = [] /\ isActive once = false) /\
  (currentSession twice = currentSession once /\
   activeTasks twice = activeTasks once /\
   isActive twice = isActive once /\
   lastActivity twice = lastActivity once) /\
  (forall dateNow, isClaudeActive dateNow once = false
                   /\ isClaudeActive dateNow twice = false).
Proof.
  intros H1 I1 H2 I2.
  assert (K1 : kind_of e1 = SessionEnd)
    by (unfold kind_of; rewrite H1; apply classify_session_end, I1).
  assert (K2 : kind_of e2 = SessionEnd)
    by (unfold kind_of; rewrite H2; apply classify_session_end, I2).
  cbv zeta.
  rewrite (submit_eq c2 e2) by (apply kind_not_null; rewrite K2; discriminate).
  rewrite (submit_eq c1 e1) by (apply kind_not_null; rewrite K1; discriminate).
  rewrite K1, K2. cbv zeta. cbn [currentSession activeTasks isActive lastActivity].
  repeat split.
Qed.

Lemma session_end_idempotent_witness :
  let s := submit (clock_at 1000) (tool_event "task_start" "t1")
             (submit (clock_at 900) (named_event "session_start") initial_state) in
  let once := submit (clock_at 2000) (named_event "session_end") s in
  let twice := submit (clock_at 3000) (named_event "SessionEnd") once in
  (currentSession once = null /\ activeTasks once = [] /\ isActive once = false) /\
  (currentSession twice = currentSession once /\
   activeTasks twice = activeTasks once /\
   isActive twice = isActive once /\
   lastActivity twice = lastActivity once) /\
  (forall dateNow, isClaudeActive dateNow once = false
                   /\ isClaudeActive dateNow twice = false).
Proof.
  apply (session_end_idempotent (clock_at 2000) (clock_at 3000)
           (named_event "session_end") (named_event "SessionEnd")
           "session_end" "SessionEnd").
  - reflexivity.
  - simpl. auto.
  - reflexivity.
  - simpl. auto.
Defined.

(** ** The history *)

Lemma logged_firstn (h : list json) (event : json) (timestamp : string) :
  (List.length h <= 50)%nat ->
  logged h event timestamp = firstn 50 (record_of event timestamp :: h).
Proof.
  intros H. unfold logged.
  destruct (50 <? List.length (record_of event timestamp :: h))%nat eqn:E.
  - apply Nat.ltb_lt in E. cbn [List.length] in E.
    rewrite removelast_firstn_len. cbn [List.length Nat.pred].
    replace (List.length h) with 50%nat by lia. reflexivity.
  - apply Nat.ltb_ge in E. symmetry. apply firstn_all2. exact E.
Qed.

Lemma firstn_app_firstn {A : Type} (n : nat) (l1 l2 : list A) :
  firstn n (l1 ++ firstn n l2) = firstn n (l1 ++ l2).
Proof.
  rewrite !firstn_app, firstn_firstn.
  replace (Nat.min (n - List.length l1) n) with (n - List.length l1)%nat by lia.
  reflexivity.
Qed.

Lemma submit_history (c : Clock) (event : json) (s : State) :
  event <> JNull ->
  activityHistory (submit c event s) = logged (activityHistory s) event (isoString c).
Proof.
  intros H. rewrite submit_eq by assumption. cbv zeta.
  destruct (kind_of event); reflexivity.
Qed.

Lemma submit_all_nil (s : State) : submit_all [] s = s.
Proof. reflexivity. Qed.

Lemma submit_all_cons (call : Clock * json) (calls : list (Clock * json)) (s : State) :
  submit_all (call :: calls) s = submit_all calls (submit (fst call) (snd call) s).
Proof. reflexivity. Qed.


Lemma submit_all_history (calls : list (Clock * json)) (s : State) :
  (List.length (activityHistory s) <= 50)%nat ->
  Forall is_event calls ->
  activityHistory (submit_all calls s)
  = firstn 50 (rev (map record_of_call calls) ++ activityHistory s).
Proof.
  revert s. induction calls as [|[c event] calls IH]; intros s Hlen Hall.
  - rewrite submit_all_nil. cbn [map rev app]. symmetry. apply firstn_all2. exact Hlen.
  - inversion Hall as [|x l Hev Hrest]; subst. unfold is_event in Hev. cbn [snd] in Hev.
    rewrite submit_all_cons. cbn [fst snd].
    rewrite IH; [| rewrite submit_history by assumption; apply logged_length, Hlen
                 | assumption].
    rewrite submit_history by assumption.
    rewrite logged_firstn by assumption.
    rewrite firstn_app_firstn.
    cbn [map rev]. rewrite <- app_assoc. reflexivity.
Qed.

(** C7: every call on an event adds one record to the history, whatever the
    kind; the history stays most-recent-first and holds at most 50 records,
    the oldest being dropped.  From a state with at most 50 records (every
    reachable one), the history after a run is the first 50 of the new
    records, newest first, followed by the old ones; after 60 calls it has
    exactly 50 entries, and its first entry is the record of the last call. *)
Theorem history_capped_most_recent_first (calls : list (Clock * json)) (s : State) :
  (List.length (get_history s) <= 50)%nat ->
  Forall is_event calls ->
  let h := get_history (submit_all calls s) in
  h = firstn 50 (rev (map record_of_call calls) ++ get_history s) /\
  (List.length h <= 50)%nat /\
  (List.length calls = 60%nat -> List.length h = 50%nat) /\
  (forall earlier last, calls = (earlier ++ [last])%list ->
     hd_error h = Some (record_of_call last)).
Proof.
  intros Hlen Hall. unfold get_history in *. cbv zeta.
  rewrite (submit_all_history calls s Hlen Hall).
  split; [reflexivity|].
  split; [rewrite length_firstn; lia|].
  split.
  - intros H60. rewrite length_firstn, length_app, length_rev, length_map. lia.
  - intros earlier last ->.
    rewrite map_app, rev_app_distr. reflexivity.
Qed.

Lemma history_capped_most_recent_first_witness :
  let calls := (repeat (clock_at 1000, named_event "heartbeat") 59
                ++ [(clock_at 2000, named_event "stop")])%list in
  let h := get_history (submit_all calls initial_state) in
  List.length h = 50%nat /\
  hd_error h = Some (record_of_call (clock_at 2000, named_event "stop")).
Proof.
  intros calls h.
  assert (Hall : Forall is_event calls).
  { apply Forall_app. split.
    - apply Forall_forall. intros x Hx. apply repeat_spec in Hx. subst x.
      unfold is_event. simpl. discriminate.
    - constructor; [unfold is_event; simpl; discriminate | constructor]. }
  assert (Hlen : (List.length (get_history initial_state) <= 50)%nat) by (simpl; lia).
  destruct (history_capped_most_recent_first calls initial_state Hlen Hall)
    as (_ & _ & H60 & Hhd).
  split.
  - apply H60. reflexivity.
  - apply (Hhd (repeat (clock_at 1000, named_event "heartbeat") 59)). reflexivity.
Defined.

(** ** Task bookkeeping *)













(** Scenario B: fresh tracker, task-start t1, task-end t1. *)
Example scenario_B (dateNow dateNow' : Z) :
  let s' := submit_all [(clock_at 1000, tool_event "task_start" "t1");
                        (clock_at 2000, tool_event "task_end" "t1")] initial_state in
  activeTaskCount (getStatus dateNow dateNow' s') = 0%nat /\
  status_isActive (getStatus dateNow dateNow' s') = false.
Proof. split; reflexivity. Qed.

(** ** [POST /hook] *)

Lemma post_hook_syntax_error
    (JSON_parse : string -> outcome json) (c : Clock) (body : string) (e : exn) (s : State) :
  JSON_parse body = Thrown e ->
  post_hook JSON_parse c body s = (Returned invalid_json_response, s).
Proof.
  intros H. unfold post_hook, try_catch, bind, lift, ret. rewrite H. reflexivity.
Qed.

Lemma post_hook_null
    (JSON_parse : string -> outcome json) (c : Clock) (body : string) (s : State) :
  JSON_parse body = Returned JNull ->
  post_hook JSON_parse c body s = (Returned invalid_json_response, s).
Proof.
  intros H. unfold post_hook, try_catch, bind, lift, ret. rewrite H. reflexivity.
Qed.

(** Once the body has parsed, the answer follows the outcome of
    [handleHookEvent], and the state is the one that call left. *)
Lemma post_hook_parsed
    (JSON_parse : string -> outcome json) (c : Clock) (body : string) (event : json)
    (s : State) :
  JSON_parse body = Returned event ->
  post_hook JSON_parse c body s
  = (match fst (handleHookEvent c event s) with
     | Returned _ => Returned success_response
     | Thrown _ => Returned invalid_json_response
     end, submit c event s).
Proof.
  intros H. unfold post_hook, try_catch, bind, lift, ret, submit. rewrite H.
  destruct (handleHookEvent c event s) as [[[]|e] s']; reflexivity.
Qed.

(** Events of a recognised kind are accepted. *)
Lemma post_hook_recognised
    (JSON_parse : string -> outcome json) (c : Clock) (body : string) (event : json)
    (s : State) :
  JSON_parse body = Returned event ->
  kind_of event <> Other ->
  post_hook JSON_parse c body s = (Returned success_response, submit c event s).
Proof.
  intros H K. rewrite (post_hook_parsed _ _ _ _ _ H).
  rewrite (returns_unless_other c event s K). reflexivity.
Qed.

Lemma primitive_event (v : json) :
  is_primitive v = true -> v <> JNull /\ event_name v = undefined /\ kind_of v = Other.
Proof.
  destruct v; cbn; intros H; try discriminate; repeat split; discriminate.
Qed.

(** C10: a body that parses to [null] is answered 400 with
    [{error: 'Invalid JSON'}] and the state is untouched, the dereference of
    the event throwing before any mutation; a body that parses to a number, a
    string or a boolean is answered 200, counts as an unrecognised kind, and
    only sets [lastActivity] and adds a history record. *)
Theorem null_rejected_primitive_accepted
    (JSON_parse : string -> outcome json) (c : Clock) (body : string) (v : json)
    (s : State) :
  JSON_parse body = Returned v ->
  (v = JNull ->
     handleHookEvent c v s = (Thrown TypeError, s) /\
     post_hook JSON_parse c body s = (Returned invalid_json_response, s)) /\
  (is_primitive v = true ->
     kind_of v = Other /\
     post_hook JSON_parse c body s
     = (Returned success_response,
        {| isActive := isActive s;
           lastActivity := Some (now c);
           currentSession := currentSession s;
           activeTasks := activeTasks s;
           activityHistory := logged (activityHistory s) v (isoString c) |})).
Proof.
  intros H. split.
  - intros ->. split; [apply handleHookEvent_null | apply post_hook_null, H].
  - intros P. destruct (primitive_event v P) as (Hn & Hname & K).
    split; [exact K|].
    rewrite (post_hook_parsed _ _ _ _ _ H).
    rewrite (handleHookEvent_outcome c v s Hn), K, Hname.
    rewrite (submit_eq c v s Hn), K. reflexivity.
Qed.

Lemma null_rejected_primitive_accepted_witness :
  let s := submit (clock_at 1000) (named_event "session_start") initial_state in
  post_hook parse_sample (clock_at 5000) "null" s = (Returned invalid_json_response, s) /\
  post_hook parse_sample (clock_at 5000) "42" s
  = (Returned success_response,
     {| isActive := isActive s;
        lastActivity := Some 5000;
        currentSession := currentSession s;
        activeTasks := activeTasks s;
        activityHistory :=
          logged (activityHistory s) (JNum 42%float) (isoString (clock_at 5000)) |}).
Proof.
  intros s. split.
  - apply (null_rejected_primitive_accepted parse_sample (clock_at 5000) "null" JNull s);
      reflexivity.
  - apply (null_rejected_primitive_accepted parse_sample (clock_at 5000) "42"
             (JNum 42%float) s); reflexivity.
Defined.

(** C9 at the body [{"event":{"toString":1}}]: the body parses, the event is
    filed in the history and [lastActivity] is set, then the closing
    [console.log] of the unrecognised kind throws while converting the kind
    to a string; the handler answers 400 [{error: 'Invalid JSON'}] and the
    state stays changed. *)
Lemma unprintable_kind_rejected_after_mutation :
  parse_sample unprintable_body = Returned unprintable_event /\
  handleHookEvent (clock_at 1000) unprintable_event initial_state
  = (Thrown TypeError,
     {| isActive := false;
        lastActivity := Some 1000;
        currentSession := null;
        activeTasks := [];
        activityHistory := [record_of unprintable_event (isoString (clock_at 1000))] |}) /\
  post_hook parse_sample (clock_at 1000) unprintable_body initial_state
  = (Returned invalid_json_response,
     {| isActive := false;
        lastActivity := Some 1000;
        currentSession := null;
        activeTasks := [];
        activityHistory := [record_of unprintable_event (isoString (clock_at 1000))] |}).
Proof. repeat split. Qed.

(** ** Further scenarios of the specification *)

(** Scenario A: a session-start carrying [session_id = 's1']. *)
Example scenario_A :
  let event := JObj [("event", JStr "session_start"); ("session_id", JStr "s1")] in
  let s := submit (clock_at 1000) event initial_state in
  status_isActive (getStatus 1000 1000 s) = true /\
  status_currentSession (getStatus 1000 1000 s) = JStr "s1".
Proof. split; reflexivity. Qed.

(** Scenario C: session-start, then stop; the tracker stays active for the
    length of the timeout after the stop and is inactive from then on. *)
Example scenario_C :
  let s := submit (clock_at 2000) (named_event "stop")
             (submit (clock_at 1000) (named_event "session_start") initial_state) in
  isClaudeActive (2000 + INACTIVITY_TIMEOUT - 1) s = true /\
  isClaudeActive (2000 + INACTIVITY_TIMEOUT + 1) s = false.
Proof. split; reflexivity. Qed.

(** The PascalCase hook names reach the same branches as the short ones. *)
Example hook_names_classified :
  map classify
    [Val (JStr "SessionStart"); Val (JStr "SessionEnd"); Val (JStr "PreToolUse");
     Val (JStr "PostToolUse"); Val (JStr "Stop"); Val (JStr "SubagentStop");
     Val (JStr "heartbeat"); Val (JStr "Notification"); undefined; Val (JNum 1%float)]
  = [SessionStart; SessionEnd; TaskStart; TaskEnd; Stop; Stop; Heartbeat; Other; Other;
     Other].
Proof. reflexivity. Qed.

(** A session id that is falsy is replaced by ['active']. *)
Example session_id_defaults :
  let event := JObj [("hook_event_name", JStr "SessionStart"); ("session_id", JStr "")] in
  currentSession (submit (clock_at 1000) event initial_state) = JStr "active".
Proof. reflexivity. Qed.

(** * Beyond the specification: the rest of the server and its clients *)

(** ** The task [Map] *)

Lemma same_value_zero_object_l (k k' : value) :
  is_object k = true -> same_value_zero k k' = false.
Proof. destruct k as [|[]]; cbn; try discriminate; reflexivity. Qed.

Lemma same_value_zero_object_r (k k' : value) :
  is_object k' = true -> same_value_zero k k' = false.
Proof.
  destruct k' as [|[]]; cbn; try discriminate; intros _; destruct k as [|[]]; reflexivity.
Qed.

(** A usable key that is not compared by identity matches itself. *)
Lemma same_value_zero_refl (k : value) :
  truthy k = true -> is_object k = false -> same_value_zero k k = true.
Proof.
  destruct k as [|[]]; cbn; try discriminate; intros T _.
  - destruct b; reflexivity.
  - apply andb_prop in T. destruct T as [_ T]. rewrite T. reflexivity.
  - apply String.eqb_refl.
Qed.

Lemma length_map_set (k : value) (t : Task) (m : list (value * Task)) :
  List.length (map_set k t m)
  = if has_task k m then List.length m else S (List.length m).
Proof.
  induction m as [|[k' t'] m IH]; cbn; [reflexivity|].
  destruct (same_value_zero k' k); cbn; [reflexivity|].
  fold (has_task k m). rewrite IH. destruct (has_task k m); reflexivity.
Qed.

Lemma has_task_nonempty (k : value) (m : list (value * Task)) :
  has_task k m = true -> (0 < List.length m)%nat.
Proof. destruct m; cbn; [discriminate | lia]. Qed.

Lemma length_map_delete (k : value) (m : list (value * Task)) :
  List.length (map_delete k m)
  = if has_task k m then Nat.pred (List.length m) else List.length m.
Proof.
  induction m as [|[k' t'] m IH]; cbn; [reflexivity|].
  destruct (same_value_zero k' k); cbn; [reflexivity|].
  fold (has_task k m). rewrite IH. destruct (has_task k m) eqn:H; [|reflexivity].
  apply has_task_nonempty in H. lia.
Qed.

Lemma map_delete_map_set (k : value) (t : Task) (m : list (value * Task)) :
  same_value_zero k k = true -> has_task k m = false ->
  map_delete k (map_set k t m) = m.
Proof.
  intros R. induction m as [|[k' t'] m IH]; cbn.
  - intros _. rewrite R. reflexivity.
  - intros H. apply orb_false_elim in H. destruct H as [H1 H2].
    rewrite H1. cbn. rewrite H1, (IH H2). reflexivity.
Qed.

Lemma kind_event (event : json) (name : string) (names : list string) (k : kind) :
  event_name event = JStr name -> In name names ->
  (forall n, In n names -> classify (JStr n) = k) ->
  kind_of event = k.
Proof. intros H I C. unfold kind_of. rewrite H. apply C, I. Qed.

(** X1: the number of tasks in flight after any call: a task-start with a
    usable id adds one unless that id is already there, a task-end with a
    usable id removes one when the id is there, a session-end leaves none,
    and nothing else changes the count. *)
Theorem task_count_after_event (c : Clock) (event : json) (s : State) :
  let id := prop event K_tool_use_id in
  let n := map_size (activeTasks s) in
  map_size (activeTasks (submit c event s)) =
  match kind_of event with
  | TaskStart => if truthy id && negb (has_task id (activeTasks s)) then S n else n
  | TaskEnd => if truthy id && has_task id (activeTasks s) then Nat.pred n else n
  | SessionEnd => 0%nat
  | _ => n
  end.
Proof.
  cbv zeta. destruct event eqn:E; [reflexivity | ..];
    (rewrite submit_eq by discriminate; cbv zeta;
     destruct (kind_of _); cbn [activeTasks]; try reflexivity;
     unfold map_size;
     match goal with |- context [truthy ?v] => destruct (truthy v) end;
     cbn [andb]; try reflexivity;
     rewrite ?length_map_set, ?length_map_delete;
     match goal with |- context [has_task ?k ?m] => destruct (has_task k m) end;
     reflexivity).
Qed.

(** X2: a task-start followed by the task-end with the same id puts the task
    mapping back as it was, when the id is usable, is not an array or object,
    and was not in flight before. *)
Theorem task_start_end_round_trip (c1 c2 : Clock) (e1 e2 : json) (s : State) :
  kind_of e1 = TaskStart ->
  kind_of e2 = TaskEnd ->
  prop e2 K_tool_use_id = prop e1 K_tool_use_id ->
  truthy (prop e1 K_tool_use_id) = true ->
  is_object (prop e1 K_tool_use_id) = false ->
  has_task (prop e1 K_tool_use_id) (activeTasks s) = false ->
  activeTasks (submit c2 e2 (submit c1 e1 s)) = activeTasks s.
Proof.
  intros K1 K2 Hid T O H.
  rewrite (submit_eq c2 e2) by (apply kind_not_null; rewrite K2; discriminate).
  rewrite (submit_eq c1 e1) by (apply kind_not_null; rewrite K1; discriminate).
  cbv zeta. rewrite K1, K2, Hid, T. cbn [activeTasks].
  apply map_delete_map_set; [apply same_value_zero_refl|]; assumption.
Qed.

Lemma task_start_end_round_trip_witness :
  let s := submit (clock_at 1000) (tool_event "task_start" "a") initial_state in
  activeTasks (submit (clock_at 3000) (tool_event "PostToolUse" "b")
                 (submit (clock_at 2000) (tool_event "PreToolUse" "b") s))
  = activeTasks s.
Proof.
  apply task_start_end_round_trip; reflexivity.
Defined.

Lemma isClaudeActive_with_tasks (dateNow : Z) (s : State) :
  activeTasks s <> [] -> isClaudeActive dateNow s = true.
Proof.
  intros H. unfold isClaudeActive, map_size.
  destruct (activeTasks s); [congruence|].
  cbn [List.length Nat.eqb Nat.ltb Nat.leb]. rewrite andb_false_r. reflexivity.
Qed.

Lemma has_object_map_set (k : value) (t : Task) (m : list (value * Task)) :
  has_object m = true \/ is_object k = true -> has_object (map_set k t m) = true.
Proof.
  induction m as [|[k' t'] m IH]; cbn.
  - intros [H | H]; [discriminate | rewrite H; reflexivity].
  - fold (has_object m). intros H.
    destruct (same_value_zero k' k) eqn:E; cbn; fold (has_object m).
    + destruct H as [H | H]; [exact H|].
      rewrite (same_value_zero_object_r k' k H) in E. discriminate.
    + fold (has_object (map_set k t m)).
      destruct (is_object k'); [reflexivity|]. cbn in *. apply IH, H.
Qed.

Lemma has_object_map_delete (k : value) (m : list (value * Task)) :
  has_object m = true -> has_object (map_delete k m) = true.
Proof.
  induction m as [|[k' t'] m IH]; cbn; [discriminate|].
  fold (has_object m). intros H.
  destruct (same_value_zero k' k) eqn:E; cbn.
  - destruct (is_object k') eqn:O; [|exact H].
    rewrite (same_value_zero_object_l k' k O) in E. discriminate.
  - fold (has_object (map_delete k m)).
    destruct (is_object k'); [reflexivity|]. apply IH, H.
Qed.

Lemma has_object_nonempty (m : list (value * Task)) : has_object m = true -> m <> [].
Proof. destruct m; cbn; [discriminate | intros _; discriminate]. Qed.

Lemma has_object_submit (c : Clock) (event : json) (s : State) :
  kind_of event <> SessionEnd ->
  has_object (activeTasks s) = true ->
  has_object (activeTasks (submit c event s)) = true.
Proof.
  intros K H. destruct event eqn:E; [exact H | ..];
    (rewrite submit_eq by discriminate; cbv zeta;
     destruct (kind_of _); cbn [activeTasks]; try exact H; try congruence;
     match goal with |- context [truthy ?v] => destruct (truthy v) end;
     first [ exact H
           | apply has_object_map_set; left; exact H
           | apply has_object_map_delete; exact H ]).
Qed.

(** X3: a task started with an array or an object as [tool_use_id] cannot be
    ended: whatever events follow, short of a session-end, it stays in the
    mapping and [isClaudeActive] stays true at every time. *)
Theorem object_id_task_never_ends
    (c : Clock) (event : json) (id : json) (calls : list (Clock * json)) (s : State) :
  kind_of event = TaskStart ->
  prop event K_tool_use_id = Val id ->
  is_object id = true ->
  Forall (fun call => kind_of (snd call) <> SessionEnd) calls ->
  let s' := submit_all calls (submit c event s) in
  activeTasks s' <> [] /\ forall dateNow, isClaudeActive dateNow s' = true.
Proof.
  intros K P O Hcalls. cbv zeta.
  assert (H0 : has_object (activeTasks (submit c event s)) = true).
  { rewrite submit_eq by (apply kind_not_null; rewrite K; discriminate).
    rewrite K, P. cbv zeta. cbn [activeTasks].
    replace (truthy id) with true by (destruct id; cbn in *; congruence).
    apply has_object_map_set. right. exact O. }
  assert (H : has_object (activeTasks (submit_all calls (submit c event s))) = true).
  { revert H0. generalize (submit c event s) as st.
    induction Hcalls as [|call calls Hk _ IH]; intros st H0.
    - exact H0.
    - rewrite submit_all_cons. apply IH, has_object_submit; assumption. }
  apply has_object_nonempty in H.
  split; [exact H | intros dateNow; apply isClaudeActive_with_tasks, H].
Qed.

Lemma object_id_task_never_ends_witness :
  let start := JObj [("event", JStr "task_start"); ("tool_use_id", JArr [JStr "t1"])] in
  let finish := JObj [("event", JStr "task_end"); ("tool_use_id", JArr [JStr "t1"])] in
  let s' := submit_all [(clock_at 2000, finish); (clock_at 3000, named_event "stop")]
              (submit (clock_at 1000) start initial_state) in
  activeTasks s' <> [] /\ forall dateNow, isClaudeActive dateNow s' = true.
Proof.
  apply (object_id_task_never_ends (clock_at 1000)
           (JObj [("event", JStr "task_start"); ("tool_use_id", JArr [JStr "t1"])])
           (JArr [JStr "t1"])).
  - reflexivity.
  - reflexivity.
  - reflexivity.
  - repeat constructor; simpl; discriminate.
Defined.

Lemma map_set_keys_any (k x : value) (t : Task) (m : list (value * Task)) :
  In x (keys (map_set k t m)) -> In x (keys m) \/ x = k.
Proof.
  induction m as [|[k' t'] m IH]; cbn.
  - intros [<- | []]. right. reflexivity.
  - destruct (same_value_zero k' k); cbn; [tauto|].
    intros [<- | H]; [tauto|]. destruct (IH H); tauto.
Qed.

Lemma map_delete_keys_incl (k x : value) (m : list (value * Task)) :
  In x (keys (map_delete k m)) -> In x (keys m).
Proof.
  induction m as [|[k' t'] m IH]; cbn; [tauto|].
  destruct (same_value_zero k' k); cbn; [tauto|].
  intros [<- | H]; [tauto | right; apply IH, H].
Qed.

Lemma distinct_map_set (k : value) (t : Task) (m : list (value * Task)) :
  distinct_keys (keys m) -> distinct_keys (keys (map_set k t m)).
Proof.
  induction m as [|[k' t'] m IH]; cbn.
  - intros _. split; [constructor | exact I].
  - intros [Hk Hm]. destruct (same_value_zero k' k) eqn:E; cbn; [split; assumption|].
    split; [|apply IH, Hm].
    apply Forall_forall. intros x Hx. apply map_set_keys_any in Hx.
    destruct Hx as [Hx | ->]; [|exact E].
    rewrite Forall_forall in Hk. apply Hk, Hx.
Qed.

Lemma distinct_map_delete (k : value) (m : list (value * Task)) :
  distinct_keys (keys m) -> distinct_keys (keys (map_delete k m)).
Proof.
  induction m as [|[k' t'] m IH]; cbn; [tauto|].
  intros [Hk Hm]. destruct (same_value_zero k' k); cbn; [exact Hm|].
  split; [|apply IH, Hm].
  apply Forall_forall. intros x Hx. apply map_delete_keys_incl in Hx.
  rewrite Forall_forall in Hk. apply Hk, Hx.
Qed.

Lemma truthy_keys_map_set (k : value) (t : Task) (m : list (value * Task)) :
  truthy k = true ->
  Forall (fun x => truthy x = true) (keys m) ->
  Forall (fun x => truthy x = true) (keys (map_set k t m)).
Proof.
  intros T H. apply Forall_forall. intros x Hx. apply map_set_keys_any in Hx.
  destruct Hx as [Hx | ->]; [|exact T]. rewrite Forall_forall in H. apply H, Hx.
Qed.

Lemma truthy_keys_map_delete (k : value) (m : list (value * Task)) :
  Forall (fun x => truthy x = true) (keys m) ->
  Forall (fun x => truthy x = true) (keys (map_delete k m)).
Proof.
  intros H. apply Forall_forall. intros x Hx. apply map_delete_keys_incl in Hx.
  rewrite Forall_forall in H. apply H, Hx.
Qed.

(** X4: in every reachable state the task mapping holds no falsy key
    ([undefined], [null], [false], [0], the empty string) and no two entries
    whose keys match. *)
Theorem task_keys_usable_and_distinct (s : State) :
  reachable s ->
  Forall (fun k => truthy k = true) (keys (activeTasks s)) /\
  distinct_keys (keys (activeTasks s)).
Proof.
  induction 1 as [| s c event _ [IH1 IH2] _].
  - split; [constructor | exact I].
  - destruct event eqn:E; [rewrite submit_null; split; assumption | ..];
      (rewrite submit_eq by discriminate; cbv zeta;
       destruct (kind_of _); cbn [activeTasks];
       try (split; assumption);
       try (split; [constructor | exact I]);
       match goal with |- context [truthy ?v] => destruct (truthy v) eqn:T end;
       try (split; assumption);
       first [ split; [apply truthy_keys_map_set | apply distinct_map_set]; assumption
             | split; [apply truthy_keys_map_delete | apply distinct_map_delete];
               assumption ]).
Qed.

Lemma task_keys_usable_and_distinct_witness :
  let s := submit (clock_at 2000) (tool_event "task_start" "b")
             (submit (clock_at 1000) (tool_event "task_start" "a") initial_state) in
  Forall (fun k => truthy k = true) (keys (activeTasks s)) /\
  distinct_keys (keys (activeTasks s)).
Proof.
  apply task_keys_usable_and_distinct.
  repeat (apply reachable_submit; [| unfold clock_ok; simpl; lia]).
  apply reachable_initial.
Defined.

(** ** The history records *)

Lemma lookup_set_field_same (k : string) (v : json) (fields : list (string * json)) :
  lookup k (set_field k v fields) = Val v.
Proof.
  induction fields as [|[k' v'] fields IH]; cbn.
  - rewrite String.eqb_refl. reflexivity.
  - destruct (k =? k')%string eqn:E; cbn; rewrite E; [reflexivity | exact IH].
Qed.





Lemma is_record_record_of (event : json) (timestamp : string) :
  is_record (record_of event timestamp).
Proof.
  exists (set_field "receivedAt" (JStr timestamp) (spread event)), timestamp.
  split; [reflexivity | apply lookup_set_field_same].
Qed.

Lemma Forall_removelast {A : Type} (P : A -> Prop) (l : list A) :
  Forall P l -> Forall P (removelast l).
Proof.
  induction 1 as [|x l Hx Hl IH]; cbn; [constructor|].
  destruct l; [constructor | constructor; assumption].
Qed.

(** X6: every entry of the history of a reachable state is an object with a
    [receivedAt] string. *)
Theorem history_holds_records (s : State) :
  reachable s -> Forall is_record (get_history s).
Proof.
  unfold get_history. induction 1 as [| s c event _ IH _]; [constructor|].
  destruct event eqn:E; [rewrite submit_null; exact IH | ..];
    (rewrite submit_history by discriminate; unfold logged;
     match goal with |- context [if ?b then _ else _] => destruct b end;
     [apply Forall_removelast|];
     (constructor; [apply is_record_record_of | exact IH])).
Qed.

Lemma history_holds_records_witness :
  Forall is_record
    (get_history (submit (clock_at 1000) (JStr "not an object") initial_state)).
Proof.
  apply history_holds_records.
  apply reachable_submit; [apply reachable_initial | unfold clock_ok; simpl; lia].
Defined.

(** ** Activity over time *)

(** X7: the cached flag never under-reports: in a reachable state, whenever
    [isClaudeActive] answers true, [isActive] is true. *)
Theorem flag_never_under_reports (dateNow : Z) (s : State) :
  reachable s -> isClaudeActive dateNow s = true -> isActive s = true.
Proof.
  intros Hr. destruct (reachable_invariant s Hr) as [Hs _ _ Hf].
  unfold isClaudeActive, map_size. intros H.
  destruct (activeTasks s) as [|e m] eqn:M.
  - apply Hf. left. destruct Hs as [Hs | Hs]; [|apply truthy_not_null, Hs].
    destruct (currentSession s) as [|[]]; cbn in Hs; try discriminate Hs.
    cbn in H. discriminate H.
  - apply Hf. right. discriminate.
Qed.

Lemma flag_never_under_reports_witness :
  let s := submit (clock_at 1000) (named_event "session_start") initial_state in
  isActive s = true.
Proof.
  intros s. apply (flag_never_under_reports 2000 s).
  - apply reachable_submit; [apply reachable_initial | unfold clock_ok; simpl; lia].
  - reflexivity.
Defined.

(** X8: a status taken at one instant from a reachable state is consistent
    in itself: [isActive] is true exactly when [activeTaskCount] is positive,
    or a session is there and [timeSinceActivity] is below
    [inactivityTimeout]; and [timeSinceActivity] is null exactly when
    [lastActivity] is. *)
Theorem status_self_consistent (dateNow : Z) (s : State) :
  reachable s ->
  let st := getStatus dateNow dateNow s in
  status_isActive st
  = ((0 <? activeTaskCount st)%nat
     || (negb (is_null (status_currentSession st))
         && match timeSinceActivity st with
            | Some elapsed => elapsed <? inactivityTimeout st
            | None => false
            end)) /\
  (timeSinceActivity st = None <-> status_lastActivity st = None).
Proof.
  intros Hr. destruct (reachable_invariant s Hr) as [Hs Ht _ _]. cbv zeta.
  unfold getStatus, isClaudeActive, map_size.
  cbn [status_isActive activeTaskCount status_currentSession timeSinceActivity
         inactivityTimeout status_lastActivity].
  assert (E : negb (truthy (currentSession s)) = is_null (currentSession s)).
  { destruct Hs as [H | H].
    - rewrite H. destruct (currentSession s) as [|[]]; cbn in *; congruence.
    - rewrite H, (truthy_not_null _ H). reflexivity. }
  rewrite E.
  assert (T : time_truthy (lastActivity s)
              = match lastActivity s with Some _ => true | None => false end).
  { destruct (lastActivity s) as [t|] eqn:L; [|reflexivity].
    cbn. specialize (Ht t eq_refl). destruct (Z.eqb_spec t 0); [lia | reflexivity]. }
  rewrite T. split.
  - destruct (activeTasks s); cbn [List.length Nat.eqb Nat.ltb Nat.leb];
      [|rewrite andb_false_r; reflexivity].
    destruct (is_null (currentSession s)); cbn [andb orb negb]; [reflexivity|].
    destruct (lastActivity s); cbn [time_or_zero]; [|reflexivity].
    destruct (_ <? _); reflexivity.
  - destruct (lastActivity s); split; congruence.
Qed.

Lemma status_self_consistent_witness :
  let s := submit (clock_at 1000) (named_event "session_start") initial_state in
  let st := getStatus 200000 200000 s in
  status_isActive st
  = ((0 <? activeTaskCount st)%nat
     || (negb (is_null (status_currentSession st))
         && match timeSinceActivity st with
            | Some elapsed => elapsed <? inactivityTimeout st
            | None => false
            end)) /\
  (timeSinceActivity st = None <-> status_lastActivity st = None).
Proof.
  apply status_self_consistent.
  apply reachable_submit; [apply reachable_initial | unfold clock_ok; simpl; lia].
Defined.

(** X9: with no further events, a tracker that answers inactive stays
    inactive as time goes on, in any state. *)
Theorem inactive_stays_inactive (dateNow dateNow' : Z) (s : State) :
  dateNow <= dateNow' ->
  isClaudeActive dateNow s = false ->
  isClaudeActive dateNow' s = false.
Proof.
  intros Hle. unfold isClaudeActive.
  destruct (negb (truthy (currentSession s)) && (map_size (activeTasks s) =? 0)%nat);
    [reflexivity|].
  destruct (0 <? map_size (activeTasks s))%nat; [discriminate|].
  destruct (time_truthy (lastActivity s)); [|reflexivity].
  cbv zeta.
  destruct (Z.ltb_spec (dateNow - time_or_zero (lastActivity s)) INACTIVITY_TIMEOUT);
    [discriminate|].
  intros _.
  destruct (Z.ltb_spec (dateNow' - time_or_zero (lastActivity s)) INACTIVITY_TIMEOUT);
    [lia | reflexivity].
Qed.

Lemma inactive_stays_inactive_witness :
  let s := submit (clock_at 1000) (named_event "session_start") initial_state in
  isClaudeActive 999999 s = false.
Proof.
  intros s. apply (inactive_stays_inactive 121000 999999 s); [lia | reflexivity].
Defined.

Lemma idle_step (c : Clock) (event : json) (s : State) :
  can_activate event = false ->
  currentSession s = null /\ activeTasks s = [] ->
  currentSession (submit c event s) = null /\ activeTasks (submit c event s) = [].
Proof.
  unfold can_activate. intros Hc [Hs Hm].
  destruct event eqn:E; [rewrite submit_null; auto | ..];
    (rewrite submit_eq by discriminate; cbv zeta;
     destruct (kind_of _); cbn [currentSession activeTasks];
     try discriminate; try (split; [assumption || reflexivity | assumption || reflexivity]);
     try (rewrite Hc; split; assumption);
     rewrite Hm; destruct (truthy _); split; assumption || reflexivity).
Qed.

(** X10: only a session-start, or a task-start with a usable id, can wake an
    idle tracker: from a state with no session and no tasks, any run of other
    calls leaves it with neither, and [isClaudeActive] false at every
    time. *)
Theorem idle_until_session_or_task (calls : list (Clock * json)) (s : State) :
  currentSession s = null ->
  activeTasks s = [] ->
  Forall (fun call => can_activate (snd call) = false) calls ->
  let s' := submit_all calls s in
  currentSession s' = null /\ activeTasks s' = [] /\
  forall dateNow, isClaudeActive dateNow s' = false.
Proof.
  intros Hs Hm Hcalls. cbv zeta.
  assert (H : currentSession (submit_all calls s) = null
              /\ activeTasks (submit_all calls s) = []).
  { revert s Hs Hm. induction Hcalls as [|call calls Hc _ IH]; intros s Hs Hm.
    - split; assumption.
    - rewrite submit_all_cons.
      destruct (idle_step (fst call) (snd call) s Hc (conj Hs Hm)) as [Hs' Hm'].
      apply IH; assumption. }
  destruct H as [Hs' Hm']. split; [exact Hs'|]. split; [exact Hm'|].
  intros dateNow. unfold isClaudeActive. rewrite Hs', Hm'. reflexivity.
Qed.

Lemma idle_until_session_or_task_witness :
  let calls := [(clock_at 1000, named_event "heartbeat");
                (clock_at 2000, named_event "task_start");
                (clock_at 3000, tool_event "task_end" "t1");
                (clock_at 4000, named_event "Notification");
                (clock_at 5000, JNull)] in
  let s' := submit_all calls initial_state in
  currentSession s' = null /\ activeTasks s' = [] /\
  forall dateNow, isClaudeActive dateNow s' = false.
Proof.
  apply idle_until_session_or_task.
  - reflexivity.
  - reflexivity.
  - repeat constructor.
Defined.

(** X11: while a session is open and no task is in flight, each stop,
    heartbeat or unrecognised event restarts the timeout: afterwards
    [isClaudeActive] is true exactly at the times less than 120000 ms past
    the event. *)
Theorem stamp_restarts_timeout (c : Clock) (event : json) (dateNow : Z) (s : State) :
  reachable s ->
  clock_ok c ->
  only_stamps event ->
  currentSession s <> null ->
  activeTasks s = [] ->
  isClaudeActive dateNow (submit c event s) = (dateNow - now c <? INACTIVITY_TIMEOUT).
Proof.
  intros Hr [_ Hc] [Hn Hk] Hs Hm.
  destruct (reachable_invariant s Hr) as [Hi _ _ _].
  assert (T : truthy (currentSession s) = true).
  { destruct Hi as [Hi | Hi]; [|exact Hi]. apply is_null_true in Hi. contradiction. }
  assert (E : submit c event s
              = mkState (isActive s) (Some (now c)) (currentSession s) (activeTasks s)
                  (logged (activityHistory s) event (isoString c))).
  { rewrite submit_eq by assumption. cbv zeta.
    destruct Hk as [-> | [-> | ->]]; reflexivity. }
  rewrite E. unfold isClaudeActive, map_size.
  cbn [currentSession activeTasks lastActivity time_truthy time_or_zero].
  rewrite T, Hm. cbn [negb andb List.length Nat.ltb Nat.leb].
  destruct (Z.eqb_spec (now c) 0); [lia|]. cbn [negb].
  destruct (dateNow - now c <? INACTIVITY_TIMEOUT); reflexivity.
Qed.

Lemma stamp_restarts_timeout_witness :
  let s := submit (clock_at 1000) (named_event "session_start") initial_state in
  isClaudeActive 600000 (submit (clock_at 500000) (named_event "heartbeat") s)
  = (600000 - now (clock_at 500000) <? INACTIVITY_TIMEOUT).
Proof.
  apply stamp_restarts_timeout.
  - apply reachable_submit; [apply reachable_initial | unfold clock_ok; simpl; lia].
  - unfold clock_ok; simpl; lia.
  - split; [discriminate | right; left; reflexivity].
  - discriminate.
  - reflexivity.
Defined.

Lemma classify_session_start (name : string) :
  In name ["session_start"; "SessionStart"] -> classify (JStr name) = SessionStart.
Proof. cbn [In]. intros [<- | [<- | []]]; reflexivity. Qed.

(** X12: a session-start, under either name, returns with the session set
    to the event's [session_id] when that is truthy and to ['active']
    otherwise, the tasks untouched, and the tracker active from any earlier
    state for the next 120000 ms. *)
Theorem session_start_opens_session
    (c : Clock) (event : json) (name : string) (s : State) :
  event_name event = JStr name ->
  In name ["session_start"; "SessionStart"] ->
  clock_ok c ->
  let s' := submit c event s in
  handleHookEvent c event s = (Returned tt, s') /\
  currentSession s' = or_else (prop event K_session_id) (JStr "active") /\
  activeTasks s' = activeTasks s /\
  isActive s' = true /\
  forall dateNow, dateNow - now c < INACTIVITY_TIMEOUT -> isClaudeActive dateNow s' = true.
Proof.
  intros Hname Hin [_ Hc]. cbv zeta.
  assert (K : kind_of event = SessionStart)
    by (unfold kind_of; rewrite Hname; apply classify_session_start, Hin).
  split; [apply returns_unless_other; rewrite K; discriminate|].
  rewrite submit_eq by (apply kind_not_null; rewrite K; discriminate).
  rewrite K. cbv zeta. cbn [currentSession activeTasks isActive].
  repeat split.
  intros dateNow Hd. unfold isClaudeActive.
  cbn [currentSession activeTasks lastActivity time_truthy time_or_zero].
  rewrite or_else_active_truthy. cbn [negb andb].
  destruct (0 <? map_size (activeTasks s))%nat; [reflexivity|].
  destruct (Z.eqb_spec (now c) 0); [lia|]. cbn [negb].
  destruct (Z.ltb_spec (dateNow - now c) INACTIVITY_TIMEOUT); [reflexivity | lia].
Qed.

Lemma session_start_opens_session_witness :
  let event := JObj [("hook_event_name", JStr "SessionStart"); ("session_id", JNum 0%float)] in
  let s' := submit (clock_at 1000) event initial_state in
  handleHookEvent (clock_at 1000) event initial_state = (Returned tt, s') /\
  currentSession s' = or_else (prop event K_session_id) (JStr "active") /\
  activeTasks s' = activeTasks initial_state /\
  isActive s' = true /\
  forall dateNow, dateNow - now (clock_at 1000) < INACTIVITY_TIMEOUT ->
                  isClaudeActive dateNow s' = true.
Proof.
  apply (session_start_opens_session (clock_at 1000)
           (JObj [("hook_event_name", JStr "SessionStart"); ("session_id", JNum 0%float)])
           "SessionStart").
  - reflexivity.
  - simpl. auto.
  - unfold clock_ok; simpl; lia.
Defined.

(** ** Routing and [POST /simulate] *)



Lemma destructure_action_not_null (v : json) :
  v <> JNull -> destructure_action v = Returned (action_of v).
Proof. destruct v; intros H; try reflexivity. congruence. Qed.

Lemma post_simulate_refused
    (JSON_parse : string -> outcome json) (t : Ticks) (body : string) (s : State) :
  JSON_parse body = Returned JNull \/ (exists e, JSON_parse body = Thrown e) ->
  post_simulate JSON_parse t body s = (Returned invalid_request_reply, s).
Proof.
  unfold post_simulate, try_catch, bind, lift, ret.
  intros [H | [e H]]; rewrite H; reflexivity.
Qed.

Lemma post_simulate_parsed
    (JSON_parse : string -> outcome json) (t : Ticks) (body : string) (v : json)
    (s : State) :
  JSON_parse body = Returned v ->
  v <> JNull ->
  post_simulate JSON_parse t body s
  = (Returned (mkReply 200 json_headers
                 (SimulateBody (getStatus (statusNow t) (statusNow' t)
                                  (after_simulate t (action_of v) s)))),
     after_simulate t (action_of v) s).
Proof.
  intros H Hn. unfold post_simulate, try_catch, bind, lift, after_simulate.
  rewrite H, (destructure_action_not_null v Hn).
  destruct (is_string (action_of v) "start");
    [rewrite returns_unless_other by discriminate; reflexivity|].
  destruct (is_string (action_of v) "stop");
    [rewrite returns_unless_other by discriminate; reflexivity|].
  destruct (is_string (action_of v) "task_start");
    [rewrite returns_unless_other by discriminate; reflexivity|].
  reflexivity.
Qed.


(** X14: only [POST /hook] and [POST /simulate] can change the tracker: any
    other request, [OPTIONS] on those two paths included, leaves the state as
    it was, and one that matches no route (a path with a query string, say)
    is answered 404 [{error: 'Not found'}]. *)
Theorem other_requests_read_only
    (JSON_parse : string -> outcome json) (t : Ticks) (req : Request) (s : State) :
  method req <> "POST" \/ (url req <> "/hook" /\ url req <> "/simulate") ->
  snd (server JSON_parse t req s) = s /\
  (method req <> "OPTIONS" ->
   ~ In (method req, url req) [("GET", "/status"); ("GET", "/history")] ->
   fst (server JSON_parse t req s) = Returned not_found_reply).
Proof.
  intros H. unfold server.
  destruct (String.eqb_spec (method req) "OPTIONS") as [Ho | Ho].
  { split; [reflexivity | intros C; contradiction]. }
  assert (E1 : (method req =? "POST")%string && (url req =? "/hook")%string = false).
  { destruct (String.eqb_spec (method req) "POST"); [|reflexivity].
    destruct (String.eqb_spec (url req) "/hook"); [|reflexivity]. tauto. }
  assert (E2 : (method req =? "POST")%string && (url req =? "/simulate")%string = false).
  { destruct (String.eqb_spec (method req) "POST"); [|reflexivity].
    destruct (String.eqb_spec (url req) "/simulate"); [|reflexivity]. tauto. }
  rewrite E1, E2.
  destruct (String.eqb_spec (method req) "GET") as [Hg | Hg]; cbn [andb].
  - destruct (String.eqb_spec (url req) "/status") as [Hu | Hu].
    { split; [reflexivity|]. intros _ C. exfalso. apply C.
      left. rewrite <- Hg, <- Hu. reflexivity. }
    destruct (String.eqb_spec (url req) "/history") as [Hh | Hh].
    { split; [reflexivity|]. intros _ C. exfalso. apply C.
      right. left. rewrite <- Hg, <- Hh. reflexivity. }
    split; reflexivity.
  - split; reflexivity.
Qed.

Lemma other_requests_read_only_witness :
  let s := submit (clock_at 1000) (named_event "session_start") initial_state in
  let t := mkTicks (clock_at 2000) 2000 2000 2000 in
  let req := mkRequest "GET" "/status?verbose=1" "" in
  snd (server parse_sample t req s) = s /\
  fst (server parse_sample t req s) = Returned not_found_reply.
Proof.
  intros s t req.
  destruct (other_requests_read_only parse_sample t req s) as [H1 H2].
  - left. discriminate.
  - split; [exact H1|]. apply H2.
    + discriminate.
    + simpl. intros [C | [C | []]]; discriminate C.
Defined.

(** X15: a 400 from [POST /simulate] means nothing happened: the body did
    not parse or parsed to [null], and the state is as before. *)
Theorem simulate_rejection_leaves_state
    (JSON_parse : string -> outcome json) (t : Ticks) (body : string)
    (r : Reply) (s s' : State) :
  post_simulate JSON_parse t body s = (Returned r, s') ->
  replyCode r = 400 ->
  s' = s /\ r = invalid_request_reply /\
  (JSON_parse body = Returned JNull \/ exists e, JSON_parse body = Thrown e).
Proof.
  intros Hrun Hcode.
  destruct (JSON_parse body) as [v|e] eqn:P.
  - destruct v eqn:V;
      try (rewrite (post_simulate_parsed _ t _ _ s P) in Hrun by discriminate;
           injection Hrun as <- _; cbn in Hcode; discriminate Hcode).
    rewrite post_simulate_refused in Hrun by (left; exact P).
    injection Hrun as <- <-. auto.
  - rewrite post_simulate_refused in Hrun by (right; eauto).
    injection Hrun as <- <-. eauto.
Qed.

Lemma simulate_rejection_leaves_state_witness :
  let s := submit (clock_at 1000) (named_event "session_start") initial_state in
  let t := mkTicks (clock_at 2000) 2000 2000 2000 in
  let out := post_simulate parse_sample t "null" s in
  snd out = s /\ fst out = Returned invalid_request_reply.
Proof.
  intros s t out.
  destruct (simulate_rejection_leaves_state parse_sample t "null"
              invalid_request_reply s (snd out)) as (H & _ & _);
    [reflexivity | reflexivity |].
  split; [exact H | reflexivity].
Defined.



Lemma action_of_string_not_null (v : json) (a : string) :
  action_of v = JStr a -> v <> JNull.
Proof. intros H ->. discriminate H. Qed.

Lemma isClaudeActive_within_timeout (dateNow t : Z) (s : State) :
  truthy (currentSession s) = true ->
  lastActivity s = Some t ->
  0 < t ->
  dateNow - t < INACTIVITY_TIMEOUT ->
  isClaudeActive dateNow s = true.
Proof.
  intros Hs Ht Hpos Hd. unfold isClaudeActive. rewrite Hs, Ht. cbn [negb andb].
  destruct (0 <? map_size (activeTasks s))%nat; [reflexivity|].
  cbn [time_truthy time_or_zero].
  destruct (Z.eqb_spec t 0); [lia|]. cbn [negb].
  destruct (Z.ltb_spec (dateNow - t) INACTIVITY_TIMEOUT); [reflexivity | lia].
Qed.

(** X17: [POST /simulate] with action ['start'] opens the session
    ['test-session'] and keeps the tasks; the status it returns shows the
    tracker active when it is taken less than 120000 ms after the event. *)
Theorem simulate_start
    (JSON_parse : string -> outcome json) (t : Ticks) (body : string) (v : json)
    (s : State) :
  JSON_parse body = Returned v ->
  action_of v = JStr "start" ->
  clock_ok (hookClock t) ->
  statusNow t - now (hookClock t) < INACTIVITY_TIMEOUT ->
  exists st s',
    post_simulate JSON_parse t body s
    = (Returned (mkReply 200 json_headers (SimulateBody st)), s') /\
    status_isActive st = true /\
    status_currentSession st = JStr "test-session" /\
    activeTaskCount st = map_size (activeTasks s).
Proof.
  intros P Ha [_ Hc] Hd.
  eexists _, _. split.
  { apply (post_simulate_parsed _ t _ _ s P), (action_of_string_not_null _ _ Ha). }
  unfold after_simulate. rewrite Ha. cbn [is_string String.eqb Ascii.eqb Bool.eqb].
  rewrite submit_eq by discriminate.
  unfold getStatus. cbn [status_isActive status_currentSession activeTaskCount].
  split; [|split; reflexivity].
  apply (isClaudeActive_within_timeout _ (now (hookClock t))); try assumption; reflexivity.
Qed.

Lemma simulate_start_witness :
  let t := mkTicks (clock_at 2000) 2000 3000 3000 in
  exists st s',
    post_simulate (fun _ => Returned (JObj [("action", JStr "start")])) t "" initial_state
    = (Returned (mkReply 200 json_headers (SimulateBody st)), s') /\
    status_isActive st = true /\
    status_currentSession st = JStr "test-session" /\
    activeTaskCount st = map_size (activeTasks initial_state).
Proof.
  intros t.
  apply (simulate_start _ t "" (JObj [("action", JStr "start")]) initial_state).
  - reflexivity.
  - reflexivity.
  - unfold clock_ok; simpl; lia.
  - vm_compute. reflexivity.
Defined.

(** X18: [POST /simulate] with action ['stop'] returns a status with no
    session, no task and an inactive tracker, whatever the state before and
    the time of the status; the tracker then stays inactive at every time. *)
Theorem simulate_stop
    (JSON_parse : string -> outcome json) (t : Ticks) (body : string) (v : json)
    (s : State) :
  JSON_parse body = Returned v ->
  action_of v = JStr "stop" ->
  exists st s',
    post_simulate JSON_parse t body s
    = (Returned (mkReply 200 json_headers (SimulateBody st)), s') /\
    status_isActive st = false /\
    status_currentSession st = null /\
    activeTaskCount st = 0%nat /\
    forall dateNow, isClaudeActive dateNow s' = false.
Proof.
  intros P Ha.
  eexists _, _. split.
  { apply (post_simulate_parsed _ t _ _ s P), (action_of_string_not_null _ _ Ha). }
  unfold after_simulate. rewrite Ha. cbn [is_string String.eqb Ascii.eqb Bool.eqb].
  rewrite submit_eq by discriminate.
  repeat split.
Qed.

Lemma simulate_stop_witness :
  let t := mkTicks (clock_at 2000) 2000 2000 2000 in
  let s := submit (clock_at 1000) (tool_event "task_start" "t1") initial_state in
  exists st s',
    post_simulate (fun _ => Returned (JObj [("action", JStr "stop")])) t "" s
    = (Returned (mkReply 200 json_headers (SimulateBody st)), s') /\
    status_isActive st = false /\
    status_currentSession st = null /\
    activeTaskCount st = 0%nat /\
    forall dateNow, isClaudeActive dateNow s' = false.
Proof.
  intros t s.
  apply (simulate_stop _ t "" (JObj [("action", JStr "stop")]) s); reflexivity.
Defined.

Lemma decimal_inj (a b : Z) : decimal a = decimal b -> a = b.
Proof.
  unfold decimal. intros H. apply DecimalZ.to_int_inj.
  assert (E : Some (Z.to_int a) = Some (Z.to_int b))
    by (rewrite <- !NilEmpty.isi, H; reflexivity).
  congruence.
Qed.

Lemma simulated_task_id_inj (a b : Z) :
  simulated_task_id a = simulated_task_id b -> a = b.
Proof. unfold simulated_task_id. cbn. intros H. apply decimal_inj. congruence. Qed.

Lemma has_task_map_set_string (a b : string) (t : Task) (m : list (value * Task)) :
  has_task (JStr a) (map_set (JStr b) t m) = (b =? a)%string || has_task (JStr a) m.
Proof.
  induction m as [|[k' t'] m IH]; cbn.
  - rewrite orb_false_r. reflexivity.
  - fold (has_task (JStr a) m).
    destruct (same_value_zero k' (JStr b)) eqn:E; cbn; fold (has_task (JStr a) m).
    + destruct (String.eqb_spec b a) as [-> | N]; [|reflexivity].
      rewrite E. reflexivity.
    + fold (has_task (JStr a) (map_set (JStr b) t m)). rewrite IH.
      destruct (same_value_zero k' (JStr a)), (b =? a)%string; reflexivity.
Qed.

Lemma after_simulate_task_start (t : Ticks) (s : State) :
  activeTasks (after_simulate t (JStr "task_start") s)
  = map_set (JStr (simulated_task_id (idNow t)))
      (mkTask (nowStarted (hookClock t)) undefined) (activeTasks s).
Proof.
  unfold after_simulate. cbn [is_string String.eqb Ascii.eqb Bool.eqb].
  rewrite submit_eq by discriminate. reflexivity.
Qed.

(** X19: each [POST /simulate] with action ['task_start'] registers a task
    named after the current millisecond.  Two of them register two tasks,
    unless both fall in the same millisecond: then they share the name and
    only one task is recorded.  Either way the tracker is active at every
    time afterwards. *)
Theorem simulated_tasks_share_a_millisecond
    (JSON_parse : string -> outcome json) (t1 t2 : Ticks) (body : string) (v : json)
    (s : State) :
  JSON_parse body = Returned v ->
  action_of v = JStr "task_start" ->
  has_task (JStr (simulated_task_id (idNow t1))) (activeTasks s) = false ->
  has_task (JStr (simulated_task_id (idNow t2))) (activeTasks s) = false ->
  let s1 := snd (post_simulate JSON_parse t1 body s) in
  let s2 := snd (post_simulate JSON_parse t2 body s1) in
  map_size (activeTasks s1) = S (map_size (activeTasks s)) /\
  map_size (activeTasks s2)
  = (if idNow t1 =? idNow t2 then S (map_size (activeTasks s))
     else S (S (map_size (activeTasks s)))) /\
  forall dateNow, isClaudeActive dateNow s2 = true.
Proof.
  intros P Ha H1 H2. cbv zeta.
  pose proof (action_of_string_not_null _ _ Ha) as Hn.
  rewrite !(post_simulate_parsed _ _ _ _ _ P Hn). cbn [snd]. rewrite Ha.
  assert (E1 : map_size (activeTasks (after_simulate t1 (JStr "task_start") s))
               = S (map_size (activeTasks s))).
  { rewrite after_simulate_task_start. unfold map_size.
    rewrite length_map_set, H1. reflexivity. }
  assert (E2 : map_size (activeTasks (after_simulate t2 (JStr "task_start")
                                        (after_simulate t1 (JStr "task_start") s)))
               = if idNow t1 =? idNow t2 then S (map_size (activeTasks s))
                 else S (S (map_size (activeTasks s)))).
  { rewrite after_simulate_task_start. unfold map_size in *.
    rewrite length_map_set, E1. rewrite after_simulate_task_start.
    rewrite has_task_map_set_string, H2, orb_false_r.
    destruct (Z.eqb_spec (idNow t1) (idNow t2)) as [-> | N].
    - rewrite String.eqb_refl. reflexivity.
    - destruct (String.eqb_spec (simulated_task_id (idNow t1))
                  (simulated_task_id (idNow t2))) as [E | _]; [|reflexivity].
      apply simulated_task_id_inj in E. contradiction. }
  split; [exact E1|]. split; [exact E2|].
  intros dateNow. apply isClaudeActive_with_tasks.
  intros C. rewrite C in E2. cbn in E2. destruct (idNow t1 =? idNow t2); discriminate.
Qed.

Lemma simulated_tasks_share_a_millisecond_witness :
  let parse := fun _ : string => Returned (JObj [("action", JStr "task_start")]) in
  let t := mkTicks (clock_at 2000) 2000 2000 2000 in
  let s1 := snd (post_simulate parse t "" initial_state) in
  let s2 := snd (post_simulate parse t "" s1) in
  map_size (activeTasks s1) = 1%nat /\
  map_size (activeTasks s2) = 1%nat /\
  forall dateNow, isClaudeActive dateNow s2 = true.
Proof.
  intros parse t.
  apply (simulated_tasks_share_a_millisecond parse t t ""
           (JObj [("action", JStr "task_start")]) initial_state); reflexivity.
Defined.

(** ** The content script *)

Lemma showOverlay_blocked (p : ContentScript.Page) :
  ContentScript.isBlocked (ContentScript.showOverlay p) = true.
Proof. reflexivity. Qed.

Lemma server_unreachable_blocked (p : ContentScript.Page) :
  ContentScript.isBlocked (ContentScript.server_unreachable p) = true.
Proof.
  unfold ContentScript.server_unreachable.
  destruct (ContentScript.overlay (ContentScript.showOverlay p)); reflexivity.
Qed.

Lemma checkStatus_lets_through
    (dateNow dateNow' : Z) (response : ContentScript.fetched)
    (w : ContentScript.Page * ContentScript.Storage) :
  match ContentScript.blockingEnabled (snd w) with Some false => true | _ => false end
  || (time_truthy (ContentScript.bypassUntil (snd w))
      && (dateNow <? time_or_zero (ContentScript.bypassUntil (snd w)))) = true ->
  ContentScript.checkStatus true dateNow dateNow' response w
  = (ContentScript.hideOverlay (fst w), snd w).
Proof.
  unfold ContentScript.checkStatus. cbn [negb].
  destruct (ContentScript.blockingEnabled (snd w)) as [[|]|]; cbn [orb];
    try reflexivity; intros ->; reflexivity.
Qed.

Lemma checkStatus_asks_server
    (dateNow dateNow' : Z) (response : ContentScript.fetched)
    (w : ContentScript.Page * ContentScript.Storage) :
  match ContentScript.blockingEnabled (snd w) with Some false => true | _ => false end
  || (time_truthy (ContentScript.bypassUntil (snd w))
      && (dateNow <? time_or_zero (ContentScript.bypassUntil (snd w)))) = false ->
  ContentScript.isBlocked
    (fst (ContentScript.checkStatus true dateNow dateNow' response w))
  = negb (ContentScript.reports_active response).
Proof.
  unfold ContentScript.checkStatus. cbn [negb].
  destruct (ContentScript.blockingEnabled (snd w)) as [[|]|]; cbn [orb];
    try discriminate; intros ->;
    (destruct response as [| | |status]; cbn [ContentScript.reports_active fst];
     try apply server_unreachable_blocked;
     destruct status; cbn [ContentScript.read_isActive fst truthy];
     try apply server_unreachable_blocked; try reflexivity;
     destruct (truthy _); reflexivity).
Qed.

(** X20: after a run of [checkStatus] the page is blocked exactly when the
    storage could not be read, or blocking is not switched off, no bypass is
    running, and the server did not report activity (a server that cannot be
    reached, an error status, an unreadable or [null] body all count as no
    activity). *)
Theorem blocked_exactly_when
    (storageAnswers : bool) (dateNow dateNow' : Z) (response : ContentScript.fetched)
    (w : ContentScript.Page * ContentScript.Storage) :
  ContentScript.isBlocked
    (fst (ContentScript.checkStatus storageAnswers dateNow dateNow' response w))
  = negb storageAnswers
    || negb (match ContentScript.blockingEnabled (snd w) with
             | Some false => true
             | _ => false
             end
             || (time_truthy (ContentScript.bypassUntil (snd w))
                 && (dateNow <? time_or_zero (ContentScript.bypassUntil (snd w))))
             || ContentScript.reports_active response).
Proof.
  destruct storageAnswers; cbn [negb orb].
  - destruct (match ContentScript.blockingEnabled (snd w) with
              | Some false => true
              | _ => false
              end
              || (time_truthy (ContentScript.bypassUntil (snd w))
                  && (dateNow <? time_or_zero (ContentScript.bypassUntil (snd w)))))
      eqn:E.
    + rewrite (checkStatus_lets_through _ _ _ _ E). reflexivity.
    + rewrite (checkStatus_asks_server _ _ _ _ E). reflexivity.
  - unfold ContentScript.checkStatus. cbn [negb fst].
    apply server_unreachable_blocked.
Qed.

Lemma coherent_show (p : ContentScript.Page) :
  ContentScript.coherent (ContentScript.showOverlay p).
Proof.
  destruct p as [[o|] b ov]; unfold ContentScript.coherent; cbn;
    (split; split; intros _; try reflexivity; eexists; split; reflexivity).
Qed.

Lemma coherent_hide (p : ContentScript.Page) :
  ContentScript.coherent (ContentScript.hideOverlay p).
Proof.
  destruct p as [[o|] b ov]; unfold ContentScript.coherent; cbn;
    (split; split; try discriminate; intros (o' & H1 & H2); try discriminate H1;
     injection H1 as <-; discriminate H2).
Qed.

Lemma coherent_unreachable (p : ContentScript.Page) :
  ContentScript.coherent (ContentScript.server_unreachable p).
Proof.
  destruct p as [[o|] b ov]; unfold ContentScript.coherent; cbn;
    (split; split; intros _; try reflexivity; eexists; split; reflexivity).
Qed.

(** X21: after every [checkStatus] and every [handleBypass], from whatever
    page, the flag [isBlocked], the overlay's [visible] class and the scroll
    lock agree: blocked means a visible overlay and [overflow = 'hidden'],
    unblocked means neither. *)
Theorem page_coherent_after_each_operation
    (storageAnswers : bool) (dateNow dateNow' : Z) (response : ContentScript.fetched)
    (w : ContentScript.Page * ContentScript.Storage) :
  ContentScript.coherent
    (fst (ContentScript.checkStatus storageAnswers dateNow dateNow' response w)) /\
  ContentScript.coherent (fst (ContentScript.handleBypass dateNow w)).
Proof.
  split; [|apply coherent_hide].
  unfold ContentScript.checkStatus.
  destruct storageAnswers; cbn [negb]; [|apply coherent_unreachable].
  destruct (ContentScript.blockingEnabled (snd w)) as [[|]|];
    try apply coherent_hide;
    (destruct (_ && _); [apply coherent_hide|];
     destruct response as [| | |status]; try apply coherent_unreachable;
     destruct (ContentScript.read_isActive status) as [v|e];
     [destruct (truthy v); [apply coherent_hide | apply coherent_show]
     | apply coherent_unreachable]).
Qed.

(** X22: a bypass lasts five minutes.  After [handleBypass] at time [t], with
    blocking switched on, a check before [t + 300000] leaves the page
    unblocked and the bypass in storage whatever the server says; a check
    from [t + 300000] on removes the bypass and blocks unless the server
    reports activity. *)
Theorem bypass_lasts_five_minutes
    (t dateNow dateNow' : Z) (response : ContentScript.fetched)
    (w : ContentScript.Page * ContentScript.Storage) :
  0 < t ->
  dateNow <= dateNow' ->
  ContentScript.blockingEnabled (snd w) <> Some false ->
  let w1 := ContentScript.handleBypass t w in
  let w2 := ContentScript.checkStatus true dateNow dateNow' response w1 in
  ContentScript.isBlocked (fst w1) = false /\
  (dateNow < t + 300000 ->
     ContentScript.isBlocked (fst w2) = false /\ snd w2 = snd w1) /\
  (t + 300000 <= dateNow ->
     ContentScript.bypassUntil (snd w2) = None /\
     ContentScript.isBlocked (fst w2) = negb (ContentScript.reports_active response)).
Proof.
  intros Ht Hle Hen. cbv zeta.
  split; [reflexivity|].
  set (w1 := ContentScript.handleBypass t w).
  assert (S1 : snd w1 = ContentScript.mkStorage (ContentScript.blockingEnabled (snd w))
                          (Some (t + 300000))) by reflexivity.
  assert (D : match ContentScript.blockingEnabled (snd w) with
              | Some false => true
              | _ => false
              end = false).
  { destruct (ContentScript.blockingEnabled (snd w)) as [[|]|]; try reflexivity.
    exfalso. apply Hen. reflexivity. }
  assert (Z0 : (t + 300000 =? 0) = false) by (apply Z.eqb_neq; lia).
  split.
  - intros Hlt. apply Z.ltb_lt in Hlt.
    rewrite checkStatus_lets_through; [split; reflexivity|].
    rewrite S1. cbn [ContentScript.blockingEnabled ContentScript.bypassUntil
                       time_truthy time_or_zero].
    rewrite D, Z0, Hlt. reflexivity.
  - intros Hge.
    assert (L : (dateNow <? t + 300000) = false) by (apply Z.ltb_ge; lia).
    assert (L' : (t + 300000 <=? dateNow') = true) by (apply Z.leb_le; lia).
    split.
    + unfold ContentScript.checkStatus. rewrite S1.
      cbn [negb ContentScript.blockingEnabled ContentScript.bypassUntil
             time_truthy time_or_zero].
      rewrite D, Z0, L, L'. cbn [negb andb].
      destruct response as [| | |status]; try reflexivity.
      destruct (ContentScript.read_isActive status) as [v|e]; [|reflexivity].
      destruct (truthy v); reflexivity.
    + apply checkStatus_asks_server.
      rewrite S1. cbn [ContentScript.blockingEnabled ContentScript.bypassUntil
                         time_truthy time_or_zero].
      rewrite D, Z0, L. reflexivity.
Qed.

Lemma bypass_lasts_five_minutes_witness :
  let w := (ContentScript.mkPage None false "", ContentScript.mkStorage (Some true) None) in
  let w1 := ContentScript.handleBypass 1000 w in
  ContentScript.isBlocked
    (fst (ContentScript.checkStatus true 300999 300999 ContentScript.NetworkError w1))
  = false /\
  ContentScript.isBlocked
    (fst (ContentScript.checkStatus true 301000 301000 ContentScript.NetworkError w1))
  = true.
Proof.
  intros w w1.
  assert (H : ContentScript.blockingEnabled (snd w) <> Some false) by (cbn; discriminate).
  split.
  - destruct (bypass_lasts_five_minutes 1000 300999 300999 ContentScript.NetworkError w)
      as (_ & A & _); [lia | lia | exact H |].
    apply A. lia.
  - destruct (bypass_lasts_five_minutes 1000 301000 301000 ContentScript.NetworkError w)
      as (_ & _ & B); [lia | lia | exact H |].
    apply B. lia.
Defined.

Lemma error_shown_show (p : ContentScript.Page) :
  ContentScript.error_shown p -> ContentScript.error_shown (ContentScript.showOverlay p).
Proof.
  destruct p as [[o|] b ov]; unfold ContentScript.error_shown; cbn;
    intros (o' & H1 & H2 & H3); [|discriminate H1].
  injection H1 as <-. eexists. split; [reflexivity|]. split; assumption.
Qed.

Lemma error_shown_hide (p : ContentScript.Page) :
  ContentScript.error_shown p -> ContentScript.error_shown (ContentScript.hideOverlay p).
Proof.
  destruct p as [[o|] b ov]; unfold ContentScript.error_shown; cbn;
    intros (o' & H1 & H2 & H3); [|discriminate H1].
  injection H1 as <-. eexists. split; [reflexivity|]. split; assumption.
Qed.

Lemma error_shown_unreachable (p : ContentScript.Page) :
  ContentScript.error_shown (ContentScript.server_unreachable p).
Proof.
  destruct p as [[o|] b ov]; unfold ContentScript.error_shown; cbn;
    eexists; split; try reflexivity; split; reflexivity.
Qed.

(** X23: the overlay's server-error text is never taken back.  A check that
    ends in the [catch] block writes it, and from then on every
    [checkStatus] and [handleBypass] leaves it in place, also a check in
    which the server answers: the page is then blocked under
    'Cannot connect to Sentinel server.' although the server was reached. *)
Theorem server_error_text_sticks
    (storageAnswers : bool) (dateNow dateNow' : Z) (response : ContentScript.fetched)
    (w : ContentScript.Page * ContentScript.Storage) :
  ContentScript.error_shown (fst w) \/ storageAnswers = false ->
  ContentScript.error_shown
    (fst (ContentScript.checkStatus storageAnswers dateNow dateNow' response w)) /\
  (ContentScript.error_shown (fst w) ->
   ContentScript.error_shown (fst (ContentScript.handleBypass dateNow w))).
Proof.
  intros H. split; [|intros E; apply error_shown_hide, E].
  unfold ContentScript.checkStatus.
  destruct storageAnswers; cbn [negb]; [|apply error_shown_unreachable].
  destruct H as [E | H]; [|discriminate H].
  destruct (ContentScript.blockingEnabled (snd w)) as [[|]|];
    try (apply error_shown_hide, E);
    (destruct (_ && _); [apply error_shown_hide, E|];
     destruct response as [| | |status]; try apply error_shown_unreachable;
     destruct (ContentScript.read_isActive status) as [v|e];
     [destruct (truthy v); [apply error_shown_hide | apply error_shown_show]; exact E
     | apply error_shown_unreachable]).
Qed.

Lemma server_error_text_sticks_witness :
  let w := (ContentScript.mkPage None false "", ContentScript.mkStorage None None) in
  let failed := ContentScript.checkStatus false 1000 1000 ContentScript.NetworkError w in
  let inactive := ContentScript.Json (JObj [("isActive", JBool false)]) in
  let later := ContentScript.checkStatus true 2000 2000 inactive failed in
  ContentScript.error_shown (fst later) /\ ContentScript.isBlocked (fst later) = true.
Proof.
  intros w failed inactive later. split; [|reflexivity].
  apply (server_error_text_sticks true 2000 2000 inactive failed).
  left. apply (server_error_text_sticks false 1000 1000 ContentScript.NetworkError w).
  right. reflexivity.
Defined.

(** ** The popup *)

(** X24: [formatTimeAgo] on a set timestamp prints the elapsed time rounded
    down in the largest unit that fits: 'Just now' below 5 s (also when the
    timestamp lies ahead of the clock), then 5..59 seconds, 1..59 minutes,
    1..23 hours, and days from one day on. *)
Theorem formatTimeAgo_units (dateNow timestamp : Z) :
  timestamp <> 0 ->
  let elapsed := dateNow - timestamp in
  let shown := Popup.formatTimeAgo dateNow (Some timestamp) in
  (elapsed < 5000 -> shown = "Just now") /\
  (5000 <= elapsed < 60000 ->
     shown = decimal (elapsed / 1000) ++ "s ago" /\ 5 <= elapsed / 1000 <= 59) /\
  (60000 <= elapsed < 3600000 ->
     shown = decimal (elapsed / 60000) ++ "m ago" /\ 1 <= elapsed / 60000 <= 59) /\
  (3600000 <= elapsed < 86400000 ->
     shown = decimal (elapsed / 3600000) ++ "h ago" /\ 1 <= elapsed / 3600000 <= 23) /\
  (86400000 <= elapsed ->
     shown = decimal (elapsed / 86400000) ++ "d ago" /\ 1 <= elapsed / 86400000).
Proof.
  intros Hts. cbv zeta. unfold Popup.formatTimeAgo.
  cbn [time_truthy time_or_zero].
  replace (timestamp =? 0) with false by (symmetry; apply Z.eqb_neq; exact Hts).
  cbn [negb].
  set (e := dateNow - timestamp).
  assert (D60 : e / 1000 / 60 = e / 60000) by (rewrite Z.div_div by lia; reflexivity).
  assert (D3600 : e / 1000 / 3600 = e / 3600000)
    by (rewrite Z.div_div by lia; reflexivity).
  assert (D86400 : e / 1000 / 86400 = e / 86400000)
    by (rewrite Z.div_div by lia; reflexivity).
  rewrite D60, D3600, D86400.
  assert (Lo : forall q u, 0 < u -> u * q <= e -> q <= e / u)
    by (intros q u Hu Hq; apply Z.div_le_lower_bound; assumption).
  assert (Hi : forall q u, 0 < u -> e < u * q -> e / u < q)
    by (intros q u Hu Hq; apply Z.div_lt_upper_bound; assumption).
  repeat split.
  - intros H. pose proof (Hi 5 1000 ltac:(lia) ltac:(lia)).
    destruct (Z.ltb_spec (e / 1000) 5); [reflexivity | lia].
  - pose proof (Lo 5 1000 ltac:(lia) ltac:(lia)).
    pose proof (Hi 60 1000 ltac:(lia) ltac:(lia)).
    destruct (Z.ltb_spec (e / 1000) 5); [lia|].
    destruct (Z.ltb_spec (e / 1000) 60); [reflexivity | lia].
  - apply Lo; lia.
  - pose proof (Hi 60 1000 ltac:(lia) ltac:(lia)). lia.
  - pose proof (Lo 60 1000 ltac:(lia) ltac:(lia)).
    pose proof (Hi 3600 1000 ltac:(lia) ltac:(lia)).
    destruct (Z.ltb_spec (e / 1000) 5); [lia|].
    destruct (Z.ltb_spec (e / 1000) 60); [lia|].
    destruct (Z.ltb_spec (e / 1000) 3600); [reflexivity | lia].
  - apply Lo; lia.
  - pose proof (Hi 60 60000 ltac:(lia) ltac:(lia)). lia.
  - pose proof (Lo 3600 1000 ltac:(lia) ltac:(lia)).
    pose proof (Hi 86400 1000 ltac:(lia) ltac:(lia)).
    destruct (Z.ltb_spec (e / 1000) 5); [lia|].
    destruct (Z.ltb_spec (e / 1000) 60); [lia|].
    destruct (Z.ltb_spec (e / 1000) 3600); [lia|].
    destruct (Z.ltb_spec (e / 1000) 86400); [reflexivity | lia].
  - apply Lo; lia.
  - pose proof (Hi 24 3600000 ltac:(lia) ltac:(lia)). lia.
  - pose proof (Lo 86400 1000 ltac:(lia) ltac:(lia)).
    destruct (Z.ltb_spec (e / 1000) 5); [lia|].
    destruct (Z.ltb_spec (e / 1000) 60); [lia|].
    destruct (Z.ltb_spec (e / 1000) 3600); [lia|].
    destruct (Z.ltb_spec (e / 1000) 86400); [lia | reflexivity].
  - apply Lo; lia.
Qed.

Lemma formatTimeAgo_units_witness :
  Popup.formatTimeAgo 7325000 (Some 1000) = "2h ago" /\
  Popup.formatTimeAgo 500 (Some 1000) = "Just now".
Proof.
  split.
  - destruct (formatTimeAgo_units 7325000 1000 ltac:(lia)) as (_ & _ & _ & H & _).
    destruct H as [H _]; [lia|]. rewrite H. reflexivity.
  - destruct (formatTimeAgo_units 500 1000 ltac:(lia)) as (H & _).
    apply H. lia.
Defined.

(** ** [POST /hook], every event *)


